(** * gomitmproxy: the MITM engine of [mitm.go]

    A shallow embedding of the handler of [mitm.go]: the issuing-CA start-up
    ([GenerateCertForClient]), the leaf mint-and-cache path
    ([FakeCertForName]), the request relay ([DumpHTTPAndHTTPs]) with its
    response observer ([filter]), the CONNECT interceptor ([InterceptHTTPs])
    and the upstream-proxy forwarder ([Forward], [connectProxyServer]).

    Go code that threads a receiver [hw *HandlerWrapper] and talks to the
    clock, the disk and the network becomes a state monad over a [State]:
    the handler's fields plus a [World] that scripts what the environment
    answers and records, as a trace of events, what the code did to it. *)

From Stdlib Require Import ZArith Lia Bool Ascii.
From stdpp Require Import gmap strings list pretty.

Open Scope string_scope.
Open Scope Z_scope.

(** ** Time *)

(** [time.Time] as nanoseconds since the epoch, [time.Duration] as
    nanoseconds. *)
Definition Time : Type := Z.
Definition Duration : Type := Z.

Definition Nanosecond : Duration := 1.
Definition Second : Duration := 1000000000 * Nanosecond.
Definition Hour : Duration := 3600 * Second.

(** Modelled from the spec: the constants [ONE_DAY], [TWO_WEEKS],
    [ONE_MONTH] and [ONE_YEAR] that [mitm.go] uses are declared in another
    file of the package.  The spec gives a leaf validity of 2 weeks, a cache
    TTL of 2 weeks less 1 day, a one-month freshness margin and a one-year
    validity of the issuing certificate; the first two are durations (they
    go to [Time.Add]), the last two are calendar counts (they go to
    [Time.AddDate]). *)
Definition ONE_DAY : Duration := 24 * Hour.
Definition TWO_WEEKS : Duration := 14 * ONE_DAY.
Definition ONE_MONTH : Z := 1.
Definition ONE_YEAR : Z := 1.

(** ** Strings *)

Definition CR : ascii := ascii_of_nat 13.
Definition LF : ascii := ascii_of_nat 10.
Definition CRLF : string := String CR (String LF "").
Definition NL : string := String LF "".

Definition is_digit (c : ascii) : bool :=
  let n := nat_of_ascii c in (48 <=? n)%nat && (n <=? 57)%nat.

Fixpoint all_digits (s : string) : bool :=
  match s with
  | "" => true
  | String c r => is_digit c && all_digits r
  end.

(** [regexp.MatchString(":[0-9]+$", host)]: some suffix of the host is a
    colon followed by one or more digits. *)
Fixpoint has_port (host : string) : bool :=
  match host with
  | "" => false
  | String c r =>
      (Ascii.eqb c ":" && negb (String.eqb r "") && all_digits r) || has_port r
  end.

(** [strings.Split(addr, ":")[0]] *)
Fixpoint before_colon (addr : string) : string :=
  match addr with
  | "" => ""
  | String c r => if Ascii.eqb c ":" then "" else String c (before_colon r)
  end.

Fixpoint has_prefix (p s : string) : bool :=
  match p, s with
  | "", _ => true
  | String a p', String b s' => Ascii.eqb a b && has_prefix p' s'
  | _, "" => false
  end.

(** [strings.Contains] *)
Fixpoint strings_Contains (s substr : string) : bool :=
  has_prefix substr s ||
  match s with
  | "" => false
  | String _ r => strings_Contains r substr
  end.

(** [strings.Join] *)
Fixpoint strings_Join (elems : list string) (sep : string) : string :=
  match elems with
  | [] => ""
  | [x] => x
  | x :: rest => x +:+ sep +:+ strings_Join rest sep
  end.

(** ** Results of Go calls *)

Definition error : Type := string.

(** A call returning [(x, err)], or panicking. *)
Inductive Result (A : Type) : Type :=
| Ok (a : A)
| Err (e : error)
| Panic (msg : string).
Arguments Ok {A} a.
Arguments Err {A} e.
Arguments Panic {A} msg.

(** How a handler leaves: by returning, by a panic in its own goroutine
    (which the HTTP server that called it recovers, closing the connection),
    or by a panic in a goroutine it started (which nothing recovers: the
    process dies). *)
Inductive Exit : Type :=
| Returned
| Panicked (msg : string)
| Crashed (msg : string).

Definition nil_dereference : string :=
  "runtime error: invalid memory address or nil pointer dereference".

(** ** Keys, certificates, PEM *)

Record PrivateKey : Type := { pk_id : nat }.

(** What the handler reads back from an X.509 certificate.  [cert_Serial]
    stands for the bytes that differ between two signing operations;
    [cert_IssuerSerial = None] is a self-signed certificate. *)
Record Certificate : Type := {
  cert_Organization : string;
  cert_CommonName : string;
  cert_NotAfter : Time;
  cert_IsCA : bool;
  cert_Key : nat;
  cert_Serial : nat;
  cert_IssuerSerial : option nat
}.

Inductive PEM : Type :=
| PemKey (k : PrivateKey)
| PemCert (c : Certificate).

(** [tls.Certificate]: a leaf with its key. *)
Record tls_Certificate : Type := {
  kp_Leaf : Certificate;
  kp_Key : PrivateKey
}.

(** [tls.Config], as far as the handler touches it. *)
Record tls_Config : Type := {
  Certificates : list tls_Certificate
}.

(** ** Requests, responses, sockets *)

Record Request : Type := {
  Method : string;
  Host : string;
  RequestURI : string;
  Header : gmap string (list string);
  URL_Scheme : string;
  URL_Host : string;
  (** what [httputil.DumpRequestOut(req, true)] yields *)
  req_dump : error + string
}.

Record Response : Type := {
  StatusCode : Z;
  Status : string;
  (** what [httputil.DumpResponse(resp, true)] yields: the wire form *)
  resp_dump : error + string
}.

(** A socket: its name, whether writing to it fails, and what
    [http.ReadResponse] gets from it. *)
Record Conn : Type := {
  conn_name : string;
  conn_writeErr : option error;
  conn_response : error + Response
}.

(** [http.ResponseWriter]: what [Hijack()] yields on it. *)
Record ResponseWriter : Type := {
  rw_hijack : error + Conn
}.

Definition io_EOF : error := "EOF".

(** [RealTbkSetCookieReq]: the fields left empty are omitted from the JSON. *)
Record RealTbkSetCookieReq : Type := {
  Cookies : string
}.

(** What becomes of the observer's POST: each failure the code checks for,
    or the collector's JSON reply [RealTbkSetCookieRsp]. *)
Inductive Collector : Type :=
| MarshalFails (e : error)
| NewRequestFails (e : error)
| DoFails (e : error)
| ReadAllFails (e : error)
| UnmarshalFails (body : string) (e : error)
| Replies (state : Z) (msg : string).

(** ** Events *)

Inductive Sink : Type := Logger | StdLog | Stdout.

Inductive Task : Type :=
| TaskDumpRequest (req : Request)
| TaskHttpDump (reqDump : option string) (respOut : Response)
| TaskServe (conn : Conn) (config : tls_Config)
| TaskCopy (src dst : option Conn).

Inductive Event : Type :=
| EvLog (sink : Sink) (line : string)
| EvGo (task : Task)
| EvRecv
| EvDial (overTLS : bool) (addr : string)
| EvSendRequest (conn : string) (req : Request) (ok : bool)
| EvWrite (conn : string) (bytes : string) (ok : bool)
| EvClose (conn : string)
| EvWriteHeader (code : Z)
| EvBody (bytes : string)
| EvFilter (resp : option Response) (req : Request)
| EvPost (url : string) (payload : RealTbkSetCookieReq).

(** ** The handler *)

Record TlsConfig : Type := {
  PrivateKeyFile : string;
  CertFile : string;
  Organization : string;
  CommonName : string;
  ServerTLSConfig : option tls_Config
}.

Record Cfg : Type := {
  Raddr : string;
  Monitor : bool
}.

(** Modelled from the spec: the type [Cache] behind [hw.dynamicCerts] is
    declared in another file of the package.  The spec describes it as a
    mapping from host to leaf with a per-entry absolute expiry. *)
Record entry : Type := {
  data : tls_Certificate;
  expiration : Time
}.

Record HandlerWrapper : Type := {
  MyConfig : Cfg;
  tlsConfig : TlsConfig;
  pk : option PrivateKey;
  pkPem : option PEM;
  issuingCert : option Certificate;
  issuingCertPem : option PEM;
  dynamicCerts : gmap string entry;
  certMutex : bool;
  https : bool
}.

(** ** The world *)

(** The network as one request meets it: the hosts a TCP dial reaches and
    those a TLS dial reaches, the fate of the observer's POST, the error (or
    none) of the first tunnel direction to finish, and [dumpAt], the point of
    the relay handler at which the dump goroutine stores its error into the
    variable [err] it shares with the handler (0: before the first test of
    [err]; 1, 2, 3: just before the test that follows the hijack, the
    response dump, the write to the client; otherwise at no such point). *)
Record Net : Type := {
  tcp : gmap string Conn;
  tls : gmap string Conn;
  collector : Collector;
  transport : option error;
  dumpAt : nat
}.

(** The clock advances by the next of [w_ticks] before each reading (never
    backwards); the fallible library calls draw their outcome from
    [w_faults], in call order ([true]: the call fails); [w_files] is the
    disk; [w_signed] counts the calls of [TLSCertificateFor] and [w_keys]
    the generated keys; [w_trace] is what the handlers did, oldest first. *)
Record World : Type := {
  w_now : Time;
  w_ticks : list Duration;
  w_faults : list bool;
  w_files : gmap string PEM;
  w_signed : nat;
  w_keys : nat;
  w_net : Net;
  w_trace : list Event
}.

Record State : Type := {
  st_hw : HandlerWrapper;
  st_world : World
}.

Definition M (A : Type) : Type := State -> A * State.

Definition ret {A} (a : A) : M A := fun s => (a, s).
Definition bind {A B} (m : M A) (k : A -> M B) : M B :=
  fun s => let (a, s') := m s in k a s'.

Notation "'let*' x ':=' m 'in' k" := (bind m (fun x => k))
  (at level 10, x name, m at level 100, k at level 200).
Notation "m '>>' k" := (bind m (fun _ => k))
  (at level 90, right associativity).

Definition get_hw : M HandlerWrapper := fun s => (st_hw s, s).
Definition get_world : M World := fun s => (st_world s, s).
Definition modify_hw (f : HandlerWrapper -> HandlerWrapper) : M unit :=
  fun s => (tt, {| st_hw := f (st_hw s); st_world := st_world s |}).
Definition modify_world (f : World -> World) : M unit :=
  fun s => (tt, {| st_hw := st_hw s; st_world := f (st_world s) |}).

Definition when (b : bool) (m : M unit) : M unit := if b then m else ret tt.

(** *** Field updates *)

Definition with_clock (t : Time) (ticks : list Duration) (w : World) : World :=
  {| w_now := t; w_ticks := ticks; w_faults := w_faults w;
     w_files := w_files w;
     w_signed := w_signed w; w_keys := w_keys w;
     w_net := w_net w; w_trace := w_trace w |}.

Definition with_faults (fs : list bool) (w : World) : World :=
  {| w_now := w_now w; w_ticks := w_ticks w; w_faults := fs;
     w_files := w_files w;
     w_signed := w_signed w; w_keys := w_keys w;
     w_net := w_net w; w_trace := w_trace w |}.

Definition with_files (fs : gmap string PEM) (w : World) : World :=
  {| w_now := w_now w; w_ticks := w_ticks w; w_faults := w_faults w;
     w_files := fs;
     w_signed := w_signed w; w_keys := w_keys w;
     w_net := w_net w; w_trace := w_trace w |}.

Definition with_signed (n : nat) (w : World) : World :=
  {| w_now := w_now w; w_ticks := w_ticks w; w_faults := w_faults w;
     w_files := w_files w;
     w_signed := n; w_keys := w_keys w;
     w_net := w_net w; w_trace := w_trace w |}.

Definition with_keys (n : nat) (w : World) : World :=
  {| w_now := w_now w; w_ticks := w_ticks w; w_faults := w_faults w;
     w_files := w_files w;
     w_signed := w_signed w; w_keys := n;
     w_net := w_net w; w_trace := w_trace w |}.

Definition with_trace (t : list Event) (w : World) : World :=
  {| w_now := w_now w; w_ticks := w_ticks w; w_faults := w_faults w;
     w_files := w_files w;
     w_signed := w_signed w; w_keys := w_keys w;
     w_net := w_net w; w_trace := t |}.

Definition with_tlsConfig (c : TlsConfig) (h : HandlerWrapper) : HandlerWrapper :=
  {| MyConfig := MyConfig h; tlsConfig := c; pk := pk h;
     pkPem := pkPem h; issuingCert := issuingCert h;
     issuingCertPem := issuingCertPem h; dynamicCerts := dynamicCerts h;
     certMutex := certMutex h; https := https h |}.

Definition with_pk (k : option PrivateKey) (h : HandlerWrapper) : HandlerWrapper :=
  {| MyConfig := MyConfig h; tlsConfig := tlsConfig h; pk := k;
     pkPem := pkPem h; issuingCert := issuingCert h;
     issuingCertPem := issuingCertPem h; dynamicCerts := dynamicCerts h;
     certMutex := certMutex h; https := https h |}.

Definition with_pkPem (p : option PEM) (h : HandlerWrapper) : HandlerWrapper :=
  {| MyConfig := MyConfig h; tlsConfig := tlsConfig h; pk := pk h;
     pkPem := p; issuingCert := issuingCert h;
     issuingCertPem := issuingCertPem h; dynamicCerts := dynamicCerts h;
     certMutex := certMutex h; https := https h |}.

Definition with_issuingCert (c : option Certificate) (h : HandlerWrapper)
  : HandlerWrapper :=
  {| MyConfig := MyConfig h; tlsConfig := tlsConfig h; pk := pk h;
     pkPem := pkPem h; issuingCert := c;
     issuingCertPem := issuingCertPem h; dynamicCerts := dynamicCerts h;
     certMutex := certMutex h; https := https h |}.

Definition with_issuingCertPem (p : option PEM) (h : HandlerWrapper)
  : HandlerWrapper :=
  {| MyConfig := MyConfig h; tlsConfig := tlsConfig h; pk := pk h;
     pkPem := pkPem h; issuingCert := issuingCert h;
     issuingCertPem := p; dynamicCerts := dynamicCerts h;
     certMutex := certMutex h; https := https h |}.

Definition with_dynamicCerts (c : gmap string entry) (h : HandlerWrapper)
  : HandlerWrapper :=
  {| MyConfig := MyConfig h; tlsConfig := tlsConfig h; pk := pk h;
     pkPem := pkPem h; issuingCert := issuingCert h;
     issuingCertPem := issuingCertPem h; dynamicCerts := c;
     certMutex := certMutex h; https := https h |}.

Definition with_certMutex (b : bool) (h : HandlerWrapper) : HandlerWrapper :=
  {| MyConfig := MyConfig h; tlsConfig := tlsConfig h; pk := pk h;
     pkPem := pkPem h; issuingCert := issuingCert h;
     issuingCertPem := issuingCertPem h; dynamicCerts := dynamicCerts h;
     certMutex := b; https := https h |}.

Definition with_https (b : bool) (h : HandlerWrapper) : HandlerWrapper :=
  {| MyConfig := MyConfig h; tlsConfig := tlsConfig h; pk := pk h;
     pkPem := pkPem h; issuingCert := issuingCert h;
     issuingCertPem := issuingCertPem h; dynamicCerts := dynamicCerts h;
     certMutex := certMutex h; https := b |}.

Definition with_Organization (o : string) (c : TlsConfig) : TlsConfig :=
  {| PrivateKeyFile := PrivateKeyFile c; CertFile := CertFile c;
     Organization := o; CommonName := CommonName c;
     ServerTLSConfig := ServerTLSConfig c |}.

Definition with_CommonName (n : string) (c : TlsConfig) : TlsConfig :=
  {| PrivateKeyFile := PrivateKeyFile c; CertFile := CertFile c;
     Organization := Organization c; CommonName := n;
     ServerTLSConfig := ServerTLSConfig c |}.

(** *** The clock, the fault script, the trace *)

(** The time that passes before the next reading of the clock. *)
Definition next_tick (ticks : list Duration) : Duration :=
  match ticks with
  | [] => 0
  | d :: _ => Z.max 0 d
  end.

(** [time.Now()] *)
Definition time_Now : M Time :=
  let* w := get_world in
  let now := w_now w + next_tick (w_ticks w) in
  modify_world (with_clock now (tail (w_ticks w))) >>
  ret now.

(** The outcome of the next fallible library call. *)
Definition draw_fault : M bool :=
  let* w := get_world in
  modify_world (with_faults (tail (w_faults w))) >>
  ret (match w_faults w with [] => false | b :: _ => b end).

Definition emit (e : Event) : M unit :=
  modify_world (fun w => with_trace (w_trace w ++ [e]) w).

(** [Println] on one of the three log sinks: the operands, separated by
    spaces. *)
Definition Println (sink : Sink) (operands : list string) : M unit :=
  emit (EvLog sink (strings_Join operands " ")).

(** ** The disk, the key and the certificate library *)

(** Modelled from the spec: [LoadPKFromFile], [GeneratePK], [WriteToFile],
    [PEMEncoded], [LoadCertificateFromFile], [ExpiresBefore] and
    [TLSCertificateFor] are methods of the package's key and certificate
    types, declared in another file.  The spec has the key and the issuing
    certificate persisted as two PEM files, loads failing when the file is
    absent or unreadable, a certificate expiring within a margin when its
    [notAfter] lies before that instant, and a signed certificate carrying
    the organization, the common name, the [notAfter] and the CA flag it was
    asked for, signed by the issuer (self-signed without one). *)
Definition LoadPKFromFile (path : string) : M (Result PrivateKey) :=
  let* w := get_world in
  ret (match w_files w !! path with
       | Some (PemKey k) => Ok k
       | _ => Err ("unable to read private key file " +:+ path)
       end).

Definition GeneratePK (bits : Z) : M (Result PrivateKey) :=
  let* failed := draw_fault in
  if failed then ret (Err "rsa: key generation failed")
  else
    let* w := get_world in
    modify_world (with_keys (S (w_keys w))) >>
    ret (Ok {| pk_id := w_keys w |}).

Definition PrivateKey_PEMEncoded (k : PrivateKey) : PEM := PemKey k.
Definition Certificate_PEMEncoded (c : Certificate) : PEM := PemCert c.

(** What [WriteToFile] returns, if anything, is dropped by both callers. *)
Definition WriteToFile (p : PEM) (path : string) : M unit :=
  let* w := get_world in
  modify_world (with_files (<[path := p]> (w_files w))).

Definition LoadCertificateFromFile (path : string) : M (Result Certificate) :=
  let* w := get_world in
  ret (match w_files w !! path with
       | Some (PemCert c) => Ok c
       | _ => Err ("unable to read certificate file " +:+ path)
       end).

Definition ExpiresBefore (c : Certificate) (t : Time) : bool :=
  cert_NotAfter c <? t.

Definition TLSCertificateFor (k : PrivateKey) (organization name : string)
    (validUntil : Time) (isCA : bool) (issuer : option Certificate)
  : M (Result Certificate) :=
  let* w := get_world in
  modify_world (with_signed (S (w_signed w))) >>
  let* failed := draw_fault in
  if failed then ret (Err "x509: signing failed")
  else ret (Ok {| cert_Organization := organization;
                  cert_CommonName := name;
                  cert_NotAfter := validUntil;
                  cert_IsCA := isCA;
                  cert_Key := pk_id k;
                  cert_Serial := w_signed w;
                  cert_IssuerSerial := cert_Serial <$> issuer |}).

(** [tls.X509KeyPair]: both blocks must parse and the key must be the
    certificate's. *)
Definition tls_X509KeyPair (certPEM keyPEM : option PEM)
  : M (Result tls_Certificate) :=
  let* failed := draw_fault in
  if failed then ret (Err "tls: failed to parse key pair")
  else ret (match certPEM, keyPEM with
            | Some (PemCert c), Some (PemKey k) =>
                if Nat.eqb (cert_Key c) (pk_id k)
                then Ok {| kp_Leaf := c; kp_Key := k |}
                else Err "tls: private key does not match public key"
            | _, _ => Err "tls: failed to find PEM block"
            end).

(** ** The certificate cache *)

(** Modelled from the spec: [NewCache], [Get] and [Set] of the package's
    [Cache].  A lookup returns an entry that is present and unexpired, an
    entry being expired once the clock has passed its expiry; eviction is
    lazy, on lookup; an insertion with a TTL stores the absolute expiry
    [now + ttl], read from the clock at the insertion, and replaces the
    host's entry, so that a host has at most one. *)
Definition NewCache : gmap string entry := ∅.

Definition Cache_Get (key : string) : M (option tls_Certificate) :=
  let* h := get_hw in
  match dynamicCerts h !! key with
  | None => ret None
  | Some e =>
      let* now := time_Now in
      if expiration e <? now
      then modify_hw (with_dynamicCerts (delete key (dynamicCerts h))) >> ret None
      else ret (Some (data e))
  end.

Definition Cache_Set (key : string) (val : tls_Certificate) (ttl : Duration)
  : M unit :=
  let* now := time_Now in
  let* h := get_hw in
  modify_hw (with_dynamicCerts
               (<[key := {| data := val; expiration := now + ttl |}]> (dynamicCerts h))).

Section Startup.

(** The package's version string, and [Time.AddDate years months days] of
    the Go library (calendar arithmetic). *)
Variable Version : string.
Variable AddDate : Z -> Z -> Z -> Time -> Time.

(** ** The issuing certificate at start-up *)

Definition GenerateCertForClient : M (option error) :=
  let* h := get_hw in
  when (String.eqb (Organization (tlsConfig h)) "")
       (modify_hw (fun h => with_tlsConfig
          (with_Organization ("gomitmproxy" +:+ Version) (tlsConfig h)) h)) >>
  let* h := get_hw in
  when (String.eqb (CommonName (tlsConfig h)) "")
       (modify_hw (fun h => with_tlsConfig
          (with_CommonName "gomitmproxy" (tlsConfig h)) h)) >>
  let* h := get_hw in
  let cfg := tlsConfig h in
  let* loaded := LoadPKFromFile (PrivateKeyFile cfg) in
  let* key :=
    match loaded with
    | Ok k => modify_hw (with_pk (Some k)) >> ret (Ok k)
    | _ =>
        let* generated := GeneratePK 2048 in
        match generated with
        | Ok k =>
            modify_hw (with_pk (Some k)) >>
            WriteToFile (PrivateKey_PEMEncoded k) (PrivateKeyFile cfg) >>
            ret (Ok k)
        | Err e =>
            modify_hw (with_pk None) >>
            ret (Err ("Unable to generate private key: " +:+ e))
        | Panic m => ret (Panic m)
        end
    end in
  match key with
  | Err e => ret (Some e)
  | Panic m => ret (Some m)
  | Ok k =>
      modify_hw (with_pkPem (Some (PrivateKey_PEMEncoded k))) >>
      let* lc := LoadCertificateFromFile (CertFile cfg) in
      let* stale :=
        match lc with
        | Ok c =>
            modify_hw (with_issuingCert (Some c)) >>
            let* now := time_Now in
            ret (ExpiresBefore c (AddDate 0 ONE_MONTH 0 now))
        | _ => modify_hw (with_issuingCert None) >> ret true
        end in
      let* issued :=
        if stale then
          let* now := time_Now in
          let* sc := TLSCertificateFor k (Organization cfg) (CommonName cfg)
                       (AddDate ONE_YEAR 0 0 now) true None in
          match sc with
          | Ok c =>
              modify_hw (with_issuingCert (Some c)) >>
              WriteToFile (Certificate_PEMEncoded c) (CertFile cfg) >>
              ret (Ok c)
          | Err e =>
              modify_hw (with_issuingCert None) >>
              ret (Err ("Unable to generate self-signed issuing certificate: " +:+ e))
          | Panic m => ret (Panic m)
          end
        else ret lc in
      match issued with
      | Ok c =>
          modify_hw (with_issuingCertPem (Some (Certificate_PEMEncoded c))) >>
          ret None
      | Err e => ret (Some e)
      | Panic m => ret (Some m)
      end
  end.

(** [InitConfig]: the handler exists only when the start-up succeeded. *)
Definition InitConfig (conf : Cfg) (tc : TlsConfig) (w : World)
  : Result HandlerWrapper * World :=
  let hw := {| MyConfig := conf; tlsConfig := tc; pk := None; pkPem := None;
               issuingCert := None; issuingCertPem := None;
               dynamicCerts := NewCache; certMutex := false; https := false |} in
  let (err, s) := GenerateCertForClient {| st_hw := hw; st_world := w |} in
  match err with
  | Some e => (Err e, st_world s)
  | None => (Ok (st_hw s), st_world s)
  end.

End Startup.

(** ** The leaf for a host *)

Definition FakeCertForName (name : string) : M (Result tls_Certificate) :=
  let* found := Cache_Get name in
  match found with
  | Some kp => ret (Ok kp)
  | None =>
      modify_hw (with_certMutex true) >>
      let* r :=
        let* found := Cache_Get name in
        match found with
        | Some kp => ret (Ok kp)
        | None =>
            let certTTL := TWO_WEEKS in
            let* h := get_hw in
            let* now := time_Now in
            let* generated :=
              match pk h with
              | Some k => TLSCertificateFor k (Organization (tlsConfig h)) name
                            (now + certTTL) false (issuingCert h)
              | None => ret (Panic nil_dereference)
              end in
            match generated with
            | Err e => ret (Err ("Unable to issue certificate: " +:+ e))
            | Panic m => ret (Panic m)
            | Ok generatedCert =>
                let* parsed := tls_X509KeyPair
                                 (Some (Certificate_PEMEncoded generatedCert)) (pkPem h) in
                match parsed with
                | Err e => ret (Err ("Unable to parse keypair for tls: " +:+ e))
                | Panic m => ret (Panic m)
                | Ok keyPair =>
                    let cacheTTL := certTTL - ONE_DAY in
                    Cache_Set name keyPair cacheTTL >>
                    ret (Ok keyPair)
                end
            end
        end in
      modify_hw (with_certMutex false) >>
      ret r
  end.

(** *** The same function, one shared-state access at a time

    For callers that run concurrently, [FakeCertForName] is cut at its
    accesses to the shared handler: the program counter of a caller names
    the access it is about to make.  [PcLock] can move only while the mutex
    is free; the deferred [Unlock] is [PcUnlock], on the way out. *)
Inductive Pc : Type :=
| PcGet1
| PcLock
| PcGet2
| PcSign
| PcKeyPair (generatedCert : Certificate)
| PcSet (keyPair : tls_Certificate)
| PcUnlock (r : Result tls_Certificate)
| PcDone (r : Result tls_Certificate).

(** One access; [None] when the caller cannot move (it waits for the mutex,
    or it has returned). *)
Definition FakeCert_step (name : string) (pc : Pc) : M (option Pc) :=
  match pc with
  | PcGet1 =>
      let* found := Cache_Get name in
      ret (Some match found with
                | Some kp => PcDone (Ok kp)
                | None => PcLock
                end)
  | PcLock =>
      let* h := get_hw in
      if certMutex h then ret None
      else modify_hw (with_certMutex true) >> ret (Some PcGet2)
  | PcGet2 =>
      let* found := Cache_Get name in
      ret (Some match found with
                | Some kp => PcUnlock (Ok kp)
                | None => PcSign
                end)
  | PcSign =>
      let certTTL := TWO_WEEKS in
      let* h := get_hw in
      let* now := time_Now in
      let* generated :=
        match pk h with
        | Some k => TLSCertificateFor k (Organization (tlsConfig h)) name
                      (now + certTTL) false (issuingCert h)
        | None => ret (Panic nil_dereference)
        end in
      ret (Some match generated with
                | Err e => PcUnlock (Err ("Unable to issue certificate: " +:+ e))
                | Panic m => PcUnlock (Panic m)
                | Ok generatedCert => PcKeyPair generatedCert
                end)
  | PcKeyPair generatedCert =>
      let* h := get_hw in
      let* parsed := tls_X509KeyPair
                       (Some (Certificate_PEMEncoded generatedCert)) (pkPem h) in
      ret (Some match parsed with
                | Err e => PcUnlock (Err ("Unable to parse keypair for tls: " +:+ e))
                | Panic m => PcUnlock (Panic m)
                | Ok keyPair => PcSet keyPair
                end)
  | PcSet keyPair =>
      let certTTL := TWO_WEEKS in
      let cacheTTL := certTTL - ONE_DAY in
      Cache_Set name keyPair cacheTTL >>
      ret (Some (PcUnlock (Ok keyPair)))
  | PcUnlock r =>
      modify_hw (with_certMutex false) >> ret (Some (PcDone r))
  | PcDone _ => ret None
  end.

(** A caller alone, for at most [fuel] accesses. *)
Fixpoint FakeCert_run (fuel : nat) (name : string) (pc : Pc) : M Pc :=
  match fuel with
  | O => ret pc
  | S fuel' =>
      let* next := FakeCert_step name pc in
      match next with
      | Some pc' => FakeCert_run fuel' name pc'
      | None => ret pc
      end
  end.

(** Two callers for one host and a scheduler that picks who moves. *)
Inductive Caller : Type := CallerA | CallerB.

Record Callers : Type := {
  shared : State;
  pcA : Pc;
  pcB : Pc
}.

Definition callers_step (name : string) (who : Caller) (c : Callers) : Callers :=
  match who with
  | CallerA =>
      let (next, s) := FakeCert_step name (pcA c) (shared c) in
      match next with
      | Some pc' => {| shared := s; pcA := pc'; pcB := pcB c |}
      | None => c
      end
  | CallerB =>
      let (next, s) := FakeCert_step name (pcB c) (shared c) in
      match next with
      | Some pc' => {| shared := s; pcA := pcA c; pcB := pc' |}
      | None => c
      end
  end.

Definition callers_run (name : string) (schedule : list Caller) (c : Callers)
  : Callers :=
  foldl (fun c who => callers_step name who c) c schedule.

(** ** Requests as the handlers change them *)

Definition with_Header (hd : gmap string (list string)) (r : Request) : Request :=
  {| Method := Method r; Host := Host r; RequestURI := RequestURI r;
     Header := hd; URL_Scheme := URL_Scheme r; URL_Host := URL_Host r;
     req_dump := req_dump r |}.

Definition with_URL (scheme host : string) (r : Request) : Request :=
  {| Method := Method r; Host := Host r; RequestURI := RequestURI r;
     Header := Header r; URL_Scheme := scheme; URL_Host := host;
     req_dump := req_dump r |}.

Definition Header_Del (key : string) (r : Request) : Request :=
  with_Header (delete key (Header r)) r.

Definition Header_Set (key value : string) (r : Request) : Request :=
  with_Header (<[key := [value]]> (Header r)) r.

(** [req.Header.Del("Proxy-Connection"); req.Header.Set("Connection",
    "Keep-Alive")] *)
Definition keep_alive (r : Request) : Request :=
  Header_Set "Connection" "Keep-Alive" (Header_Del "Proxy-Connection" r).

Definition dial_error : error := "dial: connection refused".

Definition failure {A} (r : error + A) : option error :=
  match r with inl e => Some e | inr _ => None end.

Definition when_err (err : option error) (k : error -> M unit) : M unit :=
  match err with Some e => k e | None => ret tt end.

(** The variable [err] of [DumpHTTPAndHTTPs] is shared with the goroutine
    that dumps the request, which stores its own error into it at a moment
    of its choosing.  At the test numbered [point] the handler finds its own
    last assignment [own], unless the goroutine stored just before. *)
Definition shared_err (point : nat) (own : option error) (req : Request)
  : M (option error) :=
  let* w := get_world in
  ret (if Nat.eqb (dumpAt (w_net w)) point then failure (req_dump req) else own).

(** ** The response observer *)

Definition filter (resp : option Response) (req : Request) : M unit :=
  emit (EvFilter resp req) >>
  if strings_Contains (RequestURI req) "pub.alimama.com"
     || strings_Contains (RequestURI req) "afpeng.alimama.com"
  then
    let u := "http://tym.taoyumin.cn/index.php?r=search/setdata" in
    let cookies := strings_Join (default [] (Header req !! "Cookie")) ";" in
    let request := {| Cookies := cookies |} in
    let* w := get_world in
    match collector (w_net w) with
    | MarshalFails e => Println StdLog ["Marshal error:"; e]
    | NewRequestFails e => Println StdLog ["new http request error:"; e]
    | DoFails e =>
        emit (EvPost u request) >>
        Println StdLog ["do http request error:"; e]
    | ReadAllFails e =>
        emit (EvPost u request) >>
        Println StdLog ["response read body error:"; e]
    | UnmarshalFails rspBody e =>
        emit (EvPost u request) >>
        Println StdLog ["response body:"; rspBody] >>
        Println StdLog ["Unmarshal http response error:"; e]
    | Replies state msg =>
        emit (EvPost u request) >>
        let* now := time_Now in
        if state =? 1000
        then Println Stdout ["set cookies success. cookie: "; cookies; pretty now]
        else Println Stdout [pretty state; "error msg:"; msg; pretty now]
    end
  else ret tt.

(** ** The request relay *)

(** [req.Write(connOut)] and [http.ReadResponse]: the same lines in the
    plain and in the TLS branch.  On the left an early return, on the right
    [respOut], [None] being the nil response of a failed read. *)
Definition exchange (connOut : Conn) (req : Request) : M (Exit + option Response) :=
  emit (EvSendRequest (conn_name connOut) req
          (bool_decide (conn_writeErr connOut = None))) >>
  match conn_writeErr connOut with
  | Some e => Println Logger ["send to server error"; e] >> ret (inl Returned)
  | None =>
      match conn_response connOut with
      | inl e =>
          when (negb (String.eqb e io_EOF))
               (Println Logger ["read response error:"; e]) >>
          ret (inr None)
      | inr r => ret (inr (Some r))
      end
  end.

(** [DumpHTTPAndHTTPs] from the dial on, with [connIn] hijacked and its
    [Close] deferred. *)
Definition relay (connIn : Conn) (req : Request) : M Exit :=
  let host := Host req in
  let matched := has_port host in
  let* h := get_hw in
  let* w := get_world in
  let* upstream :=
    if negb (https h) then
      let host := if matched then host else host +:+ ":80" in
      emit (EvDial false host) >>
      match tcp (w_net w) !! host with
      | None =>
          Println Logger ["dial to"; host; "error:"; dial_error] >>
          ret (inl Returned)
      | Some connOut => exchange connOut req
      end
    else
      let host := if matched then host else host +:+ ":443" in
      emit (EvDial true host) >>
      match tls (w_net w) !! host with
      | None =>
          let line := ["tls dial to"; host; "error:"; dial_error] in
          Println Logger line >>
          ret (inl (Panicked (strings_Join line " ")))
      | Some connOut => exchange connOut req
      end in
  match upstream with
  | inl exit => ret exit
  | inr None => Println StdLog ["respOut is nil"] >> ret Returned
  | inr (Some respOut) =>
      let respDump := match resp_dump respOut with inl _ => "" | inr d => d end in
      let* err := shared_err 2 (failure (resp_dump respOut)) req in
      when_err err (fun e => Println Logger ["respDump error:"; e]) >>
      emit (EvWrite (conn_name connIn) respDump
              (bool_decide (conn_writeErr connIn = None))) >>
      let* err := shared_err 3 (conn_writeErr connIn) req in
      when_err err (fun e => Println Logger ["connIn write error:"; e]) >>
      filter (Some respOut) req >>
      let reqDump := match req_dump req with inl _ => None | inr d => Some d end in
      (if Monitor (MyConfig h)
       then emit EvRecv >> emit (EvGo (TaskHttpDump reqDump respOut))
       else emit EvRecv) >>
      ret Returned
  end.

Definition DumpHTTPAndHTTPs (resp : ResponseWriter) (req : Request) : M Exit :=
  let req := keep_alive req in
  emit (EvGo (TaskDumpRequest req)) >>
  let* err := shared_err 0 None req in
  when_err err (fun e => Println Logger ["DumpRequest error "; e]) >>
  let* err := shared_err 1 (failure (rw_hijack resp)) req in
  when_err err (fun e => Println Logger ["hijack error:"; e]) >>
  match rw_hijack resp with
  | inl _ =>
      (* [defer connIn.Close()] on the nil [connIn] *)
      ret (Panicked nil_dereference)
  | inr connIn =>
      let* exit := relay connIn req in
      emit (EvClose (conn_name connIn)) >>
      ret exit
  end.

(** ** CONNECT interception and forwarding *)

Definition with_Certificates (certs : list tls_Certificate) (c : tls_Config)
  : tls_Config :=
  {| Certificates := certs |}.

Definition copyTlsConfig (template : option tls_Config) : tls_Config :=
  match template with
  | Some t => t
  | None => {| Certificates := [] |}
  end.

Definition respBadGateway (resp : ResponseWriter) (msg : string) : M unit :=
  Println StdLog [msg] >>
  emit (EvWriteHeader 502) >>
  emit (EvBody msg).

Definition ACK : string := "HTTP/1.1 200 OK" +:+ CRLF +:+ CRLF.

(** [connIn.Write(b)], the error left to the caller. *)
Definition conn_Write (c : Conn) (b : string) : M (option error) :=
  emit (EvWrite (conn_name c) b (bool_decide (conn_writeErr c = None))) >>
  ret (conn_writeErr c).

Definition InterceptHTTPs (resp : ResponseWriter) (req : Request) : M Exit :=
  let addr := Host req in
  let host := before_colon addr in
  let* cert := FakeCertForName host in
  match cert with
  | Err e =>
      respBadGateway resp
        ("Could not get mitm cert for name: " +:+ host +:+ NL +:+ "error: " +:+ e) >>
      ret Returned
  | Panic m => ret (Panicked m)
  | Ok cert =>
      match rw_hijack resp with
      | inl e =>
          respBadGateway resp
            ("Unable to access underlying connection from client: " +:+ e) >>
          ret Returned
      | inr connIn =>
          let* h := get_hw in
          let tlsConfig := copyTlsConfig (ServerTLSConfig (tlsConfig h)) in
          let tlsConfig := with_Certificates [cert] tlsConfig in
          emit (EvGo (TaskServe connIn tlsConfig)) >>
          conn_Write connIn ACK >>
          ret Returned
      end
  end.

(** The handler that the serving goroutine of [InterceptHTTPs] runs on each
    request of the intercepted connection. *)
Definition mitm_handler (resp2 : ResponseWriter) (req2 : Request) : M Exit :=
  DumpHTTPAndHTTPs resp2 (with_URL "https" (Host req2) req2).

Definition connectProxyServer (conn : option Conn) (addr : string)
  : M (Result unit) :=
  let req := {| Method := "CONNECT"; Host := addr; RequestURI := "";
                Header := {[ "Proxy-Connection" := ["keep-alive"] ]};
                URL_Scheme := ""; URL_Host := addr; req_dump := inr "" |} in
  match conn with
  | None => ret (Panic nil_dereference)
  | Some c =>
      emit (EvSendRequest (conn_name c) req
              (bool_decide (conn_writeErr c = None))) >>
      match conn_writeErr c with
      | Some e => ret (Err e)
      | None =>
          match conn_response c with
          | inl e => ret (Err e)
          | inr resp =>
              if negb (StatusCode resp =? 200)
              then ret (Err (Status resp))
              else ret (Ok tt)
          end
      end
  end.

(** [Transport]: two copying goroutines and the error of the first to
    finish; on the left, the panic of a goroutine that was handed a nil
    connection. *)
Definition Transport (conn1 conn2 : option Conn) : M (string + option error) :=
  emit (EvGo (TaskCopy conn1 conn2)) >>
  emit (EvGo (TaskCopy conn2 conn1)) >>
  match conn1, conn2 with
  | Some _, Some _ =>
      let* w := get_world in
      ret (inr (transport (w_net w)))
  | _, _ => ret (inl nil_dereference)
  end.

Section Handlers.

Variable Version : string.

Definition Established : string :=
  "HTTP/1.1 200 Connection Established" +:+ CRLF +:+
  "Proxy-Agent: gomitmproxy/" +:+ Version +:+ CRLF +:+ CRLF.

Definition Forward (resp : ResponseWriter) (req : Request) (raddr : string)
  : M Exit :=
  (* the error of [Hijack] is overwritten by that of [net.Dial] *)
  let connIn := match rw_hijack resp with inr c => Some c | inl _ => None end in
  emit (EvDial false raddr) >>
  let* w := get_world in
  let connOut := tcp (w_net w) !! raddr in
  when (bool_decide (connOut = None))
       (Println Logger ["dial tcp error"; dial_error]) >>
  let* connected := connectProxyServer connOut raddr in
  match connected with
  | Panic m => ret (Panicked m)
  | _ =>
      when_err (match connected with Err e => Some e | _ => None end)
               (fun e => Println Logger ["connectProxyServer error:"; e]) >>
      let* stop :=
        if String.eqb (Method req) "CONNECT" then
          let b := Established in
          match connIn with
          | None => ret (Some (Panicked nil_dereference))
          | Some c =>
              let* err := conn_Write c b in
              match err with
              | Some e => Println Logger ["Write Connect err:"; e] >> ret (Some Returned)
              | None => ret None
              end
          end
        else
          let req := keep_alive req in
          match connOut with
          | None => ret (Some (Panicked nil_dereference))
          | Some c =>
              emit (EvSendRequest (conn_name c) req
                      (bool_decide (conn_writeErr c = None))) >>
              match conn_writeErr c with
              | Some e => Println Logger ["send to server err"; e] >> ret (Some Returned)
              | None => ret None
              end
          end in
      match stop with
      | Some exit => ret exit
      | None =>
          let* err := Transport connIn connOut in
          match err with
          | inl m => ret (Crashed m)
          | inr (Some e) => Println StdLog ["trans error "; e] >> ret Returned
          | inr None => ret Returned
          end
      end
  end.

Definition ServeHTTP (resp : ResponseWriter) (req : Request) : M Exit :=
  let* h := get_hw in
  let raddr := Raddr (MyConfig h) in
  if negb (String.eqb raddr "") then Forward resp req raddr
  else if String.eqb (Method req) "CONNECT" then
    modify_hw (with_https true) >> InterceptHTTPs resp req
  else
    modify_hw (with_https false) >> DumpHTTPAndHTTPs resp req.

End Handlers.

(** ** What a trace shows *)

(** The events of a run: the trace it leaves when it starts on an empty
    one. *)
Definition fresh_trace (s : State) : State :=
  {| st_hw := st_hw s; st_world := with_trace [] (st_world s) |}.

Definition events {A} (m : M A) (s : State) : list Event :=
  w_trace (st_world (m (fresh_trace s)).2).

Definition exit_of (m : M Exit) (s : State) : Exit := (m (fresh_trace s)).1.

Definition is_log (e : Event) : bool :=
  match e with EvLog _ _ => true | _ => false end.
Definition is_dial (e : Event) : bool :=
  match e with EvDial _ _ => true | _ => false end.
Definition is_recv (e : Event) : bool :=
  match e with EvRecv => true | _ => false end.
Definition is_filter (e : Event) : bool :=
  match e with EvFilter _ _ => true | _ => false end.
Definition is_post (e : Event) : bool :=
  match e with EvPost _ _ => true | _ => false end.
Definition is_write (e : Event) : bool :=
  match e with EvWrite _ _ _ => true | _ => false end.
Definition is_write_on (conn : string) (e : Event) : bool :=
  match e with EvWrite c _ _ => String.eqb c conn | _ => false end.
Definition is_close_of (conn : string) (e : Event) : bool :=
  match e with EvClose c => String.eqb c conn | _ => false end.
Definition is_502 (e : Event) : bool :=
  match e with EvWriteHeader code => code =? 502 | _ => false end.
Definition is_copy (e : Event) : bool :=
  match e with EvGo (TaskCopy _ _) => true | _ => false end.
Definition is_http_dump (e : Event) : bool :=
  match e with EvGo (TaskHttpDump _ _) => true | _ => false end.
Definition is_send_request (e : Event) : bool :=
  match e with EvSendRequest _ _ _ => true | _ => false end.

Definition count (p : Event -> bool) (t : list Event) : nat :=
  length (List.filter p t).
Definition occurs (p : Event -> bool) (t : list Event) : bool :=
  existsb p t.

(** The bytes that reached the peer of socket [conn]. *)
Fixpoint bytes_on (conn : string) (t : list Event) : string :=
  match t with
  | [] => ""
  | EvWrite c b true :: rest =>
      if String.eqb c conn then b +:+ bytes_on conn rest else bytes_on conn rest
  | _ :: rest => bytes_on conn rest
  end.

(** The events before the first that satisfies [p]. *)
Fixpoint before (p : Event -> bool) (t : list Event) : list Event :=
  match t with
  | [] => []
  | e :: rest => if p e then [] else e :: before p rest
  end.

(** The events after the first that satisfies [p]. *)
Fixpoint after (p : Event -> bool) (t : list Event) : list Event :=
  match t with
  | [] => []
  | e :: rest => if p e then rest else after p rest
  end.

(** The process after the HTTP server ran a handler: the server recovers a
    panic of the handler's goroutine and closes that connection; a panic in
    any other goroutine ends the process. *)
Inductive Process : Type := Alive | Dead.

Definition serve_recover (e : Exit) : Process :=
  match e with
  | Returned => Alive
  | Panicked _ => Alive
  | Crashed _ => Dead
  end.

(** ** The intercepted socket under concurrency

    [InterceptHTTPs] starts the serving goroutine and then writes the ACK;
    the goroutine's TLS handshake writes nothing before it has read the
    client's ClientHello.  Three actors move, in any order: the handler,
    working off the events of its run; the serving goroutine; the client. *)

Inductive Chunk : Type :=
| Plain (bytes : string)
| TlsRecord.

Inductive ServePc : Type :=
| AwaitClientHello
| Speaking.

(** A patient client sends its ClientHello only once a plaintext reply to
    its CONNECT has reached it; an eager one may send it at any time. *)
Inductive ClientKind : Type := Patient | Eager.

Inductive Actor : Type := TheHandler | TheServer | TheClient.

Record Socket : Type := {
  todo : list Event;
  serving : option ServePc;
  hello : bool;
  wire : list Chunk
}.

Definition replied (w : list Chunk) : bool :=
  match w with
  | Plain _ :: _ => true
  | _ => false
  end.

Definition socket_step (conn : string) (client : ClientKind) (a : Actor)
    (k : Socket) : Socket :=
  match a with
  | TheHandler =>
      match todo k with
      | [] => k
      | EvGo (TaskServe c _) :: rest =>
          if String.eqb (conn_name c) conn
          then {| todo := rest; serving := Some AwaitClientHello;
                  hello := hello k; wire := wire k |}
          else {| todo := rest; serving := serving k;
                  hello := hello k; wire := wire k |}
      | EvWrite c b true :: rest =>
          if String.eqb c conn
          then {| todo := rest; serving := serving k;
                  hello := hello k; wire := wire k ++ [Plain b] |}
          else {| todo := rest; serving := serving k;
                  hello := hello k; wire := wire k |}
      | _ :: rest =>
          {| todo := rest; serving := serving k;
             hello := hello k; wire := wire k |}
      end
  | TheServer =>
      match serving k with
      | None => k
      | Some AwaitClientHello =>
          if hello k
          then {| todo := todo k; serving := Some Speaking;
                  hello := false; wire := wire k |}
          else k
      | Some Speaking =>
          {| todo := todo k; serving := serving k;
             hello := hello k; wire := wire k ++ [TlsRecord] |}
      end
  | TheClient =>
      match client with
      | Eager =>
          {| todo := todo k; serving := serving k;
             hello := true; wire := wire k |}
      | Patient =>
          if replied (wire k)
          then {| todo := todo k; serving := serving k;
                  hello := true; wire := wire k |}
          else k
      end
  end.

Definition socket_run (conn : string) (client : ClientKind)
    (schedule : list Actor) (k : Socket) : Socket :=
  foldl (fun k a => socket_step conn client a k) k schedule.

(** The socket as [InterceptHTTPs] finds it. *)
Definition intercepted (resp : ResponseWriter) (req : Request) (s : State)
  : Socket :=
  {| todo := events (InterceptHTTPs resp req) s; serving := None;
     hello := false; wire := [] |}.

(** Every TLS record on the wire comes after the ACK. *)
Definition ack_precedes (w : list Chunk) : Prop :=
  forall i, w !! i = Some TlsRecord ->
    exists j, (j < i)%nat /\ w !! j = Some (Plain ACK).

(** ** Predicates of the statements *)


(** Every cached leaf outlives its entry by a day, up to [slack], and no
    entry lies further ahead than the cache TTL. *)
Definition cache_margin (slack : Duration) (s : State) : Prop :=
  forall host e, dynamicCerts (st_hw s) !! host = Some e ->
    expiration e + ONE_DAY - slack <= cert_NotAfter (kp_Leaf (data e)) /\
    cert_NotAfter (kp_Leaf (data e)) <= expiration e + ONE_DAY /\
    expiration e <= w_now (st_world s) + (TWO_WEEKS - ONE_DAY).

(** No lookup of [name] can hit, now or later. *)
Definition cold (name : string) (s : State) : Prop :=
  match dynamicCerts (st_hw s) !! name with
  | None => True
  | Some e => expiration e < w_now (st_world s)
  end.

(** What the dial of the relay finds: over TCP on port 80 unless the host
    names a port, or, for an intercepted connection, over TLS on port 443. *)
Definition dialed (s : State) (req : Request) : option Conn :=
  let host := Host req in
  if negb (https (st_hw s))
  then tcp (w_net (st_world s)) !! (if has_port host then host else host +:+ ":80")
  else tls (w_net (st_world s)) !! (if has_port host then host else host +:+ ":443").

(** The client socket and the response, when one came back. *)
Definition relayed (s : State) (resp : ResponseWriter) (req : Request)
  : option (Conn * Response) :=
  match rw_hijack resp, dialed s req with
  | inr connIn, Some connOut =>
      match conn_writeErr connOut, conn_response connOut with
      | None, inr respOut => Some (connIn, respOut)
      | _, _ => None
      end
  | _, _ => None
  end.


(** A network error of the relay: at the dial, at the write of the request,
    or at the read of the response. *)
Inductive upstream_error (s : State) (req : Request) : Prop :=
| dial_fails :
    dialed s req = None -> upstream_error s req
| write_fails c e :
    dialed s req = Some c -> conn_writeErr c = Some e -> upstream_error s req
| read_fails c e :
    dialed s req = Some c -> conn_writeErr c = None ->
    conn_response c = inl e -> upstream_error s req.


(** ** Weakest preconditions for the monad *)

Definition wp {A} (m : M A) (Q : A -> State -> Prop) (s : State) : Prop :=
  Q (m s).1 (m s).2.

(** Events that touch no socket and no channel: log lines and the
    observer's POST. *)
Definition quiet (e : Event) : bool :=
  match e with
  | EvLog _ _ | EvPost _ _ => true
  | _ => false
  end.

(** The observer was handed a response. *)
Definition with_response (e : Event) : bool :=
  match e with
  | EvFilter None _ => false
  | _ => true
  end.

(** ** The invariant of two concurrent callers *)

(** The caller holds the mutex. *)
Definition holds (pc : Pc) : bool :=
  match pc with
  | PcGet2 | PcSign | PcKeyPair _ | PcSet _ | PcUnlock _ => true
  | PcGet1 | PcLock | PcDone _ => false
  end.

(** The caller is on its way out, or out, without a key pair. *)
Definition failed (pc : Pc) : bool :=
  match pc with
  | PcUnlock (Ok _) | PcDone (Ok _) => false
  | PcUnlock _ | PcDone _ => true
  | _ => false
  end.

(** The caller has no result yet. *)
Definition early (pc : Pc) : bool :=
  match pc with
  | PcUnlock _ | PcDone _ => false
  | _ => true
  end.

(** The caller has signed and not yet cached. *)
Definition signing (pc : Pc) : nat :=
  match pc with
  | PcKeyPair _ | PcSet _ => 1
  | _ => 0
  end.

(** The caller has not signed, and its result, if any, is [kp]. *)
Definition settled (kp : tls_Certificate) (pc : Pc) : Prop :=
  pc = PcGet1 \/ pc = PcLock \/ pc = PcGet2 \/
  pc = PcUnlock (Ok kp) \/ pc = PcDone (Ok kp).

(** Two callers that started at time [t0] with [n0] certificates signed:
    unless one of them failed, the mutex is held by exactly the caller
    inside the critical section, and either the cache is still cold, no
    caller has a result and the only signature is that of the caller between
    signing and caching; or the cache holds the one leaf signed since, which
    does not expire before [t0] plus the cache TTL, and it is the result of
    every caller that has one. *)
Definition memo_inv (name : string) (n0 : nat) (t0 : Time) (c : Callers) : Prop :=
  let s := shared c in
  t0 <= w_now (st_world s) /\
  (failed (pcA c) = true \/ failed (pcB c) = true \/
   (certMutex (st_hw s) = holds (pcA c) || holds (pcB c) /\
    holds (pcA c) && holds (pcB c) = false /\
    ((cold name s /\ early (pcA c) = true /\ early (pcB c) = true /\
      w_signed (st_world s) = (n0 + signing (pcA c) + signing (pcB c))%nat)
     \/
     (exists e, dynamicCerts (st_hw s) !! name = Some e /\
                t0 + (TWO_WEEKS - ONE_DAY) <= expiration e /\
                w_signed (st_world s) = S n0 /\
                settled (data e) (pcA c) /\ settled (data e) (pcB c))))).

Definition swap (c : Callers) : Callers :=
  {| shared := shared c; pcA := pcB c; pcB := pcA c |}.

(** ** The invariant of the intercepted socket *)

(** The payloads of the writes on [conn] that reach the client, in order. *)
Fixpoint writes_on (conn : string) (t : list Event) : list string :=
  match t with
  | [] => []
  | EvWrite c b true :: rest =>
      if String.eqb c conn then b :: writes_on conn rest else writes_on conn rest
  | _ :: rest => writes_on conn rest
  end.

(** With a patient client: either nothing is on the wire, no ClientHello is
    under way, the goroutine has not got past its wait for one, and the
    handler has at most the ACK left to write; or the wire carries the ACK
    and then TLS records only, and the handler has nothing left to write. *)
Definition socket_inv (conn : string) (k : Socket) : Prop :=
  (wire k = [] /\ hello k = false /\ serving k <> Some Speaking /\
   (writes_on conn (todo k) = [] \/ writes_on conn (todo k) = [ACK]))
  \/
  (exists n, wire k = Plain ACK :: replicate n TlsRecord /\
             writes_on conn (todo k) = []).

(** ** A concrete proxy, for the examples *)

(** A calendar of 365-day years and 30-day months. *)
Definition ex_AddDate (years months days : Z) (t : Time) : Time :=
  t + (years * 365 + months * 30 + days) * ONE_DAY.

Definition ex_response : Response :=
  {| StatusCode := 200; Status := "200 OK";
     resp_dump := inr ("HTTP/1.1 200 OK" +:+ CRLF +:+ CRLF +:+ "hello") |}.

Definition ex_refusal : Response :=
  {| StatusCode := 407; Status := "407 Proxy Authentication Required";
     resp_dump := inr ("HTTP/1.1 407 Proxy Authentication Required" +:+ CRLF +:+ CRLF) |}.

Definition ex_origin : Conn :=
  {| conn_name := "origin"; conn_writeErr := None; conn_response := inr ex_response |}.

Definition ex_silent : Conn :=
  {| conn_name := "silent"; conn_writeErr := None;
     conn_response := inl "read tcp: connection reset by peer" |}.

Definition ex_upstream : Conn :=
  {| conn_name := "upstream"; conn_writeErr := None; conn_response := inr ex_refusal |}.

Definition ex_client : Conn :=
  {| conn_name := "client"; conn_writeErr := None; conn_response := inl io_EOF |}.

Definition ex_net : Net :=
  {| tcp := {[ "example.test:80" := ex_origin;
               "silent.test:80" := ex_silent;
               "127.0.0.1:8888" := ex_upstream ]};
     tls := ∅;
     collector := DoFails "Post: connection refused";
     transport := None;
     dumpAt := 4 |}.

(** The clock at 0; the ticks are those of the readings of the start-up (5),
    of the first mint (0), of the insertion of its leaf (2) and of a lookup
    one nanosecond before that entry expires. *)
Definition ex_world : World :=
  {| w_now := 0;
     w_ticks := [5; 0; 2; TWO_WEEKS - ONE_DAY - 1];
     w_faults := [];
     w_files := ∅;
     w_signed := 0;
     w_keys := 0;
     w_net := ex_net;
     w_trace := [] |}.

Definition ex_tlsConfig : TlsConfig :=
  {| PrivateKeyFile := "gomitmproxy-ca-pk.pem";
     CertFile := "gomitmproxy-ca-cert.pem";
     Organization := ""; CommonName := "";
     ServerTLSConfig := None |}.

Definition ex_Cfg : Cfg := {| Raddr := ""; Monitor := false |}.

(** The handler as [InitConfig] builds it, before the start-up. *)
Definition ex_boot : State :=
  {| st_hw := {| MyConfig := ex_Cfg; tlsConfig := ex_tlsConfig;
                 pk := None; pkPem := None;
                 issuingCert := None; issuingCertPem := None;
                 dynamicCerts := NewCache; certMutex := false; https := false |};
     st_world := ex_world |}.

(** After the start-up. *)
Definition ex_ready : State :=
  (GenerateCertForClient "1.0" ex_AddDate ex_boot).2.

(** After the start-up, with a clock that ticks a nanosecond between
    readings. *)
Definition ex_prompt : State :=
  {| st_hw := st_hw ex_ready;
     st_world := with_clock (w_now (st_world ex_ready)) [1; 1; 1; 1]
                   (st_world ex_ready) |}.

(** After the start-up, on a connection that [ServeHTTP] marked as
    intercepted. *)
Definition ex_intercepted : State :=
  {| st_hw := with_https true (st_hw ex_ready); st_world := st_world ex_ready |}.


Definition ex_request (method host uri : string) : Request :=
  {| Method := method; Host := host; RequestURI := uri;
     Header := {[ "Proxy-Connection" := ["keep-alive"]; "Cookie" := ["a=1"; "b=2"] ]};
     URL_Scheme := "http"; URL_Host := host; req_dump := inr "" |}.

Definition ex_get : Request :=
  ex_request "GET" "example.test" "http://example.test/a".
Definition ex_get_nowhere : Request :=
  ex_request "GET" "nowhere.test" "http://nowhere.test/a".
Definition ex_get_silent : Request :=
  ex_request "GET" "silent.test" "http://silent.test/a".
Definition ex_connect : Request :=
  ex_request "CONNECT" "example.test:443" "example.test:443".

Definition ex_hijackable : ResponseWriter := {| rw_hijack := inr ex_client |}.
Definition ex_unhijackable : ResponseWriter :=
  {| rw_hijack := inl "http: connection has been hijacked" |}.

(** Two callers: the first goes as far as signing, the second then looks
    up, misses and waits for the mutex; the first finishes, then the
    second. *)
Definition ex_schedule : list Caller :=
  [CallerA; CallerA; CallerA; CallerA; CallerB; CallerB;
   CallerA; CallerA; CallerA; CallerB; CallerB; CallerB; CallerB].

Definition ex_callers : Callers :=
  callers_run "example.test" ex_schedule
    {| shared := ex_prompt; pcA := PcGet1; pcB := PcGet1 |}.

(** The handler starts the goroutine; the client sends its ClientHello
    without waiting; the goroutine reads it and answers; only then does the
    handler write the ACK. *)
Definition ex_race : list Actor :=
  [TheHandler; TheClient; TheServer; TheServer; TheHandler].

(** ** More predicates on traces *)

Definition is_close (e : Event) : bool :=
  match e with EvClose _ => true | _ => false end.
Definition is_serve (e : Event) : bool :=
  match e with EvGo (TaskServe _ _) => true | _ => false end.

(** The address the relay dials for a host: the host's own when it ends in
    a port, else the host with the port of the scheme. *)
Definition dial_address (overTLS : bool) (host : string) : string :=
  if has_port host then host
  else host +:+ (if overTLS then ":443" else ":80").

(** The request that an event hands on, if any, is [r]. *)
Definition carries (r : Request) (e : Event) : Prop :=
  match e with
  | EvGo (TaskDumpRequest r') => r' = r
  | EvSendRequest _ r' _ => r' = r
  | EvFilter _ r' => r' = r
  | _ => True
  end.

(** [uri] has [domain] somewhere in it. *)
Definition mentions (uri domain : string) : Prop :=
  exists a b, uri = a +:+ domain +:+ b.

(** The observer's trigger, and whether its POST leaves: it does unless
    building the request failed. *)
Definition triggered (req : Request) : bool :=
  strings_Contains (RequestURI req) "pub.alimama.com"
  || strings_Contains (RequestURI req) "afpeng.alimama.com".

Definition leaves (c : Collector) : bool :=
  match c with
  | MarshalFails _ | NewRequestFails _ => false
  | _ => true
  end.

(** ** More about the handler's certificates *)

(** The handler as a successful start-up leaves it: it holds its key and its
    issuing certificate, each with its PEM form. *)
Definition initialised (h : HandlerWrapper) : Prop :=
  exists k c, pk h = Some k /\ pkPem h = Some (PemKey k) /\
              issuingCert h = Some c /\ issuingCertPem h = Some (PemCert c).

(** Every cached leaf is filed under its own common name. *)
Definition cache_named (h : HandlerWrapper) : Prop :=
  forall host e, dynamicCerts h !! host = Some e ->
    cert_CommonName (kp_Leaf (data e)) = host.

(** The caller has returned. *)
Definition is_done (pc : Pc) : bool :=
  match pc with PcDone _ => true | _ => false end.

Definition pc_of (who : Caller) (c : Callers) : Pc :=
  match who with CallerA => pcA c | CallerB => pcB c end.

(** The caller can make its next access. *)
Definition enabled (name : string) (who : Caller) (c : Callers) : bool :=
  match (FakeCert_step name (pc_of who c) (shared c)).1 with
  | Some _ => true
  | None => false
  end.

(** The mutex is held exactly when a caller is in the critical section, and
    at most one is. *)
Definition lock_inv (c : Callers) : Prop :=
  certMutex (st_hw (shared c)) = holds (pcA c) || holds (pcB c) /\
  holds (pcA c) && holds (pcB c) = false.

(** The names the start-up settles on: the configured ones, with the
    defaults for those left empty. *)
Definition with_defaults (Version : string) (c : TlsConfig) : TlsConfig :=
  let c := if String.eqb (Organization c) ""
           then with_Organization ("gomitmproxy" +:+ Version) c else c in
  if String.eqb (CommonName c) "" then with_CommonName "gomitmproxy" c else c.

(** The handler that [InitConfig] hands to the start-up. *)
Definition blank (conf : Cfg) (tc : TlsConfig) : HandlerWrapper :=
  {| MyConfig := conf; tlsConfig := tc; pk := None; pkPem := None;
     issuingCert := None; issuingCertPem := None;
     dynamicCerts := NewCache; certMutex := false; https := false |}.

(** ** [Transport] and [MyCopy], one channel operation at a time *)

(** A channel of errors made with a buffer for [cap] values, [cap] at least
    one; [buf] holds the values sent and not yet received, oldest first. *)
Record Chan : Type := {
  cap : nat;
  buf : list (option error)
}.

Definition make_chan (n : nat) : Chan := {| cap := n; buf := [] |}.

(** [ch <- v]: the value goes into the buffer while there is room; [None]
    when the sender has to wait. *)
Definition chan_send (v : option error) (c : Chan) : option Chan :=
  if (length (buf c) <? cap c)%nat
  then Some {| cap := cap c; buf := buf c ++ [v] |}
  else None.

(** [<-ch]: the oldest value; [None] when the receiver has to wait. *)
Definition chan_recv (c : Chan) : option (option error * Chan) :=
  match buf c with
  | v :: rest => Some (v, {| cap := cap c; buf := rest |})
  | [] => None
  end.

(** A goroutine running [MyCopy]: it copies, then sends what [io.Copy]
    returned, then is gone. *)
Inductive CopyPc : Type :=
| Copying
| Sending (err : option error)
| Exited.

(** [Transport] itself: about to start the first goroutine, the second, at
    the [select], returned. *)
Inductive TransportPc : Type :=
| TpGoW
| TpGoR
| TpSelect
| TpReturned (err : option error).

(** [copyW] is the goroutine that sends on [wChan], [copyR] the one that
    sends on [rChan]; [None] while not started. *)
Record Tunnel : Type := {
  wChan : Chan;
  rChan : Chan;
  copyW : option CopyPc;
  copyR : option CopyPc;
  caller : TransportPc
}.

(** Who moves next; at a [select] with both channels ready the caller
    takes the one the runtime picks, [wChan] when [pickW]. *)
Inductive Mover : Type :=
| MvCaller (pickW : bool)
| MvCopyW
| MvCopyR.

(** One move of [MyCopy] whose [io.Copy] ends with [outcome]. *)
Definition MyCopy_step (outcome : option error) (pc : CopyPc) (ch : Chan)
  : CopyPc * Chan :=
  match pc with
  | Copying => (Sending outcome, ch)
  | Sending err =>
      match chan_send err ch with
      | Some ch' => (Exited, ch')
      | None => (Sending err, ch)
      end
  | Exited => (Exited, ch)
  end.

Definition Transport_step (outW outR : option error) (m : Mover) (k : Tunnel)
  : Tunnel :=
  match m with
  | MvCopyW =>
      match copyW k with
      | None => k
      | Some pc =>
          let (pc', ch) := MyCopy_step outW pc (wChan k) in
          {| wChan := ch; rChan := rChan k; copyW := Some pc';
             copyR := copyR k; caller := caller k |}
      end
  | MvCopyR =>
      match copyR k with
      | None => k
      | Some pc =>
          let (pc', ch) := MyCopy_step outR pc (rChan k) in
          {| wChan := wChan k; rChan := ch; copyW := copyW k;
             copyR := Some pc'; caller := caller k |}
      end
  | MvCaller pickW =>
      match caller k with
      | TpGoW =>
          {| wChan := wChan k; rChan := rChan k; copyW := Some Copying;
             copyR := copyR k; caller := TpGoR |}
      | TpGoR =>
          {| wChan := wChan k; rChan := rChan k; copyW := copyW k;
             copyR := Some Copying; caller := TpSelect |}
      | TpSelect =>
          let fromW '(err, ch) :=
            {| wChan := ch; rChan := rChan k; copyW := copyW k;
               copyR := copyR k; caller := TpReturned err |} in
          let fromR '(err, ch) :=
            {| wChan := wChan k; rChan := ch; copyW := copyW k;
               copyR := copyR k; caller := TpReturned err |} in
          match chan_recv (wChan k), chan_recv (rChan k) with
          | Some w, Some r => if pickW then fromW w else fromR r
          | Some w, None => fromW w
          | None, Some r => fromR r
          | None, None => k
          end
      | TpReturned _ => k
      end
  end.

(** [Transport] on entry, its two channels made with a buffer of one. *)
Definition Transport_start : Tunnel :=
  {| wChan := make_chan 1; rChan := make_chan 1;
     copyW := None; copyR := None; caller := TpGoW |}.

Definition Transport_run (outW outR : option error) (schedule : list Mover)
    (k : Tunnel) : Tunnel :=
  foldl (fun k m => Transport_step outW outR m k) k schedule.

(** [Transport] has returned and both goroutines are gone. *)
Definition finished (k : Tunnel) : bool :=
  match caller k, copyW k, copyR k with
  | TpReturned _, Some Exited, Some Exited => true
  | _, _, _ => false
  end.

(** One direction of the tunnel: the channel has room for one value; it is
    empty until the goroutine has sent; the goroutine sends what its copy
    ended with; and once it is gone its value sits in the buffer unless the
    caller has taken it and returned. *)
Definition side_inv (out : option error) (pc : option CopyPc) (ch : Chan)
    (returned : bool) : Prop :=
  cap ch = 1%nat /\
  match pc with
  | Some Exited => buf ch = [out] \/ (buf ch = [] /\ returned = true)
  | Some (Sending e) => e = out /\ buf ch = []
  | _ => buf ch = []
  end.

Definition has_returned (pc : TransportPc) : bool :=
  match pc with TpReturned _ => true | _ => false end.

Definition tunnel_inv (outW outR : option error) (k : Tunnel) : Prop :=
  side_inv outW (copyW k) (wChan k) (has_returned (caller k)) /\
  side_inv outR (copyR k) (rChan k) (has_returned (caller k)) /\
  match caller k with
  | TpGoW => copyW k = None /\ copyR k = None
  | TpGoR => copyR k = None /\ copyW k <> None
  | TpSelect => copyW k <> None /\ copyR k <> None
  | TpReturned err =>
      copyW k <> None /\ copyR k <> None /\
      ((err = outW /\ copyW k = Some Exited) \/
       (err = outR /\ copyR k = Some Exited))
  end.

(** ** More of the concrete proxy *)

(** The issuing certificate that the start-up of the examples signs. *)
Definition ex_ca : Certificate :=
  {| cert_Organization := "gomitmproxy1.0";
     cert_CommonName := "gomitmproxy";
     cert_NotAfter := ex_AddDate ONE_YEAR 0 0 5;
     cert_IsCA := true;
     cert_Key := 0;
     cert_Serial := 0;
     cert_IssuerSerial := None |}.

(** The same proxy behind an upstream proxy. *)
Definition ex_forwarding : State :=
  {| st_hw := {| MyConfig := {| Raddr := "127.0.0.1:8888"; Monitor := false |};
                 tlsConfig := tlsConfig (st_hw ex_ready);
                 pk := pk (st_hw ex_ready); pkPem := pkPem (st_hw ex_ready);
                 issuingCert := issuingCert (st_hw ex_ready);
                 issuingCertPem := issuingCertPem (st_hw ex_ready);
                 dynamicCerts := dynamicCerts (st_hw ex_ready);
                 certMutex := false; https := false |};
     st_world := st_world ex_ready |}.

(** After the start-up, the next signature failing. *)
Definition ex_failing : State :=
  {| st_hw := st_hw ex_ready;
     st_world := with_faults [true] (st_world ex_ready) |}.

(** A new start on the disk that the start-up left, the key file lost. *)
Definition ex_lost_key : State :=
  {| st_hw := st_hw ex_boot;
     st_world := with_files (delete "gomitmproxy-ca-pk.pem"
                               (w_files (st_world ex_ready)))
                   (st_world ex_ready) |}.

(** A start on an empty disk with a key generator that fails. *)
Definition ex_no_entropy : State :=
  {| st_hw := st_hw ex_boot; st_world := with_faults [true] ex_world |}.

(** A request read from an intercepted connection. *)
Definition ex_decrypted : Request := ex_request "GET" "example.test" "/a".

(** The configuration of the server that intercepts example.test. *)
Definition ex_serving : tls_Config :=
  {| Certificates :=
       match (FakeCertForName "example.test" ex_ready).1 with
       | Ok kp => [kp]
       | _ => []
       end |}.

(** * Proofs *)

(** ** Stepping through monadic code *)

Lemma wp_bind {A B} (m : M A) (k : A -> M B) Q s :
  wp m (fun a s' => wp (k a) Q s') s -> wp (bind m k) Q s.
Proof. unfold wp, bind. destruct (m s); auto. Qed.

Lemma wp_ret {A} (a : A) (Q : A -> State -> Prop) s : Q a s -> wp (ret a) Q s.
Proof. auto. Qed.

Lemma wp_run {A} (m : M A) Q s a s' : m s = (a, s') -> wp m Q s -> Q a s'.
Proof. unfold wp. intros E H. rewrite E in H. exact H. Qed.

Lemma wp_get_hw Q s : Q (st_hw s) s -> wp get_hw Q s.
Proof. auto. Qed.

Lemma wp_get_world Q s : Q (st_world s) s -> wp get_world Q s.
Proof. auto. Qed.

Lemma wp_modify_hw f Q s :
  Q tt {| st_hw := f (st_hw s); st_world := st_world s |} -> wp (modify_hw f) Q s.
Proof. auto. Qed.

Lemma wp_modify_world f Q s :
  Q tt {| st_hw := st_hw s; st_world := f (st_world s) |} -> wp (modify_world f) Q s.
Proof. auto. Qed.

Lemma wp_time_Now Q s :
  (let now := w_now (st_world s) + next_tick (w_ticks (st_world s)) in
   Q now {| st_hw := st_hw s;
            st_world := with_clock now (tail (w_ticks (st_world s))) (st_world s) |}) ->
  wp time_Now Q s.
Proof. auto. Qed.

Lemma wp_draw_fault Q s :
  Q (match w_faults (st_world s) with [] => false | b :: _ => b end)
    {| st_hw := st_hw s;
       st_world := with_faults (tail (w_faults (st_world s))) (st_world s) |} ->
  wp draw_fault Q s.
Proof. auto. Qed.

Lemma wp_emit e Q s :
  Q tt {| st_hw := st_hw s;
          st_world := with_trace (w_trace (st_world s) ++ [e]) (st_world s) |} ->
  wp (emit e) Q s.
Proof. auto. Qed.

Ltac wp_simpl :=
  cbn [st_hw st_world
       with_clock with_faults with_files with_signed with_keys with_trace
       with_tlsConfig with_pk with_pkPem with_issuingCert with_issuingCertPem
       with_dynamicCerts with_certMutex with_https with_Organization with_CommonName
       w_now w_ticks w_faults w_files w_signed w_keys w_net w_trace
       MyConfig tlsConfig pk pkPem issuingCert issuingCertPem dynamicCerts
       certMutex https PrivateKeyFile CertFile Organization CommonName
       ServerTLSConfig
       Method Host RequestURI Header URL_Scheme URL_Host req_dump
       keep_alive Header_Set Header_Del with_Header with_URL] in *.

Ltac wp_step :=
  lazymatch goal with
  | |- wp (bind _ _) _ _ => apply wp_bind
  | |- wp (ret _) _ _ => apply wp_ret
  | |- wp get_hw _ _ => apply wp_get_hw
  | |- wp get_world _ _ => apply wp_get_world
  | |- wp (modify_hw _) _ _ => apply wp_modify_hw
  | |- wp (modify_world _) _ _ => apply wp_modify_world
  | |- wp time_Now _ _ => apply wp_time_Now; cbv zeta
  | |- wp draw_fault _ _ => apply wp_draw_fault
  | |- wp (emit _) _ _ => apply wp_emit
  | |- wp (Println _ _) _ _ => unfold Println
  | |- wp (when _ _) _ _ => unfold when
  | |- wp (when_err _ _) _ _ => unfold when_err
  | |- wp (if ?b then _ else _) _ _ =>
      first [ match goal with H : b = _ |- _ => rewrite H end
            | destruct b eqn:? ]
  | |- wp (match ?x with _ => _ end) _ _ =>
      first [ match goal with H : x = _ |- _ => rewrite H end
            | destruct x eqn:? ]
  end; wp_simpl.

Ltac wp_steps := repeat wp_step.

(** Turns [m s = (a, s') -> G s'] into a weakest precondition of [m]. *)
Ltac wp_of H :=
  match type of H with
  | _ = (?a, ?s') =>
      pattern s';
      match goal with
      | |- ?G s' => refine (wp_run _ (fun r st => r = a -> G st) _ _ _ H _ eq_refl)
      end;
      clear H; try clear s'
  end.

(** ** The clock *)

Lemma next_tick_nonneg ticks : 0 <= next_tick ticks.
Proof. destruct ticks; simpl; lia. Qed.



(** ** The issuing certificate *)

Section StartupFacts.

Variable Version : string.
Variable AddDate : Z -> Z -> Z -> Time -> Time.

(** A year from an instant is not before a month from it. *)
Hypothesis AddDate_year_month :
  forall t, AddDate 0 ONE_MONTH 0 t <= AddDate ONE_YEAR 0 0 t.

(** C3.  After a successful [GenerateCertForClient] the handler holds an
    issuing certificate whose [notAfter] is at least one month after the
    clock: either the certificate that is on disk, kept because it does not
    expire before then, with nothing signed; or, the load having failed or
    the loaded certificate expiring within the month, a newly signed one,
    self-signed, a CA, valid for one year from the clock, and written to the
    certificate file. *)
Theorem GenerateCertForClient_ca_fresh (s s' : State) :
  GenerateCertForClient Version AddDate s = (None, s') ->
  exists c,
    issuingCert (st_hw s') = Some c /\
    issuingCertPem (st_hw s') = Some (PemCert c) /\
    AddDate 0 ONE_MONTH 0 (w_now (st_world s')) <= cert_NotAfter c /\
    ((w_signed (st_world s') = w_signed (st_world s) /\
      w_files (st_world s') !! CertFile (tlsConfig (st_hw s')) = Some (PemCert c))
     \/
     (w_signed (st_world s') = S (w_signed (st_world s)) /\
      cert_IsCA c = true /\ cert_IssuerSerial c = None /\
      cert_NotAfter c = AddDate ONE_YEAR 0 0 (w_now (st_world s')) /\
      w_files (st_world s') !! CertFile (tlsConfig (st_hw s')) = Some (PemCert c))).
Proof.
  intros H. wp_of H.
  unfold GenerateCertForClient, LoadPKFromFile, GeneratePK, WriteToFile,
    LoadCertificateFromFile, TLSCertificateFor.
  destruct s as [h w]. wp_steps.
  all: try discriminate.
  all: intros _; eexists; split; [reflexivity|]; split; [reflexivity|].
  all: unfold ExpiresBefore in *; cbn.
  all: split; [ first [ apply AddDate_year_month | apply Z.ltb_ge; assumption ] | ].
  all: first
    [ left; split; [ reflexivity | ];
      match goal with
      | H : match ?l with _ => _ end = Ok ?c |- ?l = _ =>
          destruct l as [[?|?]|]; inversion H; reflexivity
      end
    | right; repeat split; try reflexivity; intros;
      first [ congruence | apply lookup_insert_eq ] ].
Qed.

End StartupFacts.

(** ** The leaf and its cache entry *)

Lemma ONE_DAY_pos : 0 < ONE_DAY.
Proof. reflexivity. Qed.

Lemma TWO_WEEKS_ONE_DAY : TWO_WEEKS = 14 * ONE_DAY.
Proof. reflexivity. Qed.

Ltac tlia := unfold TWO_WEEKS, ONE_DAY, Hour, Second, Nanosecond in *; cbn in *; lia.

Lemma cache_margin_tick slack h w t ticks :
  w_now w <= t ->
  cache_margin slack {| st_hw := h; st_world := w |} ->
  cache_margin slack {| st_hw := h; st_world := with_clock t ticks w |}.
Proof.
  intros Ht H host e He. specialize (H host e He). cbn in *. lia.
Qed.


(** ** Two callers of [FakeCertForName] *)

Lemma callers_step_swap name c :
  callers_step name CallerB c = swap (callers_step name CallerA (swap c)).
Proof.
  unfold callers_step, swap. cbn.
  destruct (FakeCert_step name (pcB c) (shared c)) as [[pc'|] s']; cbn.
  - reflexivity.
  - destruct c; reflexivity.
Qed.

Lemma memo_inv_swap name n0 t0 c :
  memo_inv name n0 t0 c -> memo_inv name n0 t0 (swap c).
Proof.
  unfold memo_inv, swap. cbn.
  intros [Ht [F | [F | [Hm [Hx Hp]]]]]; split; auto.
  right; right. rewrite orb_comm, andb_comm. split; [exact Hm|]. split; [exact Hx|].
  destruct Hp as [[Hc [Ha [Hb Hn]]] | [e [He [Hexp [Hn [Ha Hb]]]]]].
  - left. repeat split; auto. lia.
  - right. exists e. auto.
Qed.

(** The clock never runs backwards under a step. *)
Lemma FakeCert_step_clock name pc s t :
  t <= w_now (st_world s) ->
  t <= w_now (st_world (FakeCert_step name pc s).2).
Proof.
  intros Ht.
  change (wp (FakeCert_step name pc) (fun _ s' => t <= w_now (st_world s')) s).
  unfold FakeCert_step, Cache_Get, Cache_Set, TLSCertificateFor, tls_X509KeyPair.
  destruct s as [h w]. cbn in Ht.
  pose proof (next_tick_nonneg (w_ticks w)).
  destruct pc; wp_steps; lia.
Qed.

Lemma callers_step_clock name who c t :
  t <= w_now (st_world (shared c)) ->
  t <= w_now (st_world (shared (callers_step name who c))).
Proof.
  intros Ht. pose proof (FakeCert_step_clock name (pcA c) (shared c) t Ht).
  pose proof (FakeCert_step_clock name (pcB c) (shared c) t Ht).
  unfold callers_step.
  destruct who;
    [ destruct (FakeCert_step name (pcA c) (shared c)) as [[?|] ?]
    | destruct (FakeCert_step name (pcB c) (shared c)) as [[?|] ?] ]; cbn in *; auto.
Qed.

Lemma callers_run_clock name schedule c t :
  t <= w_now (st_world (shared c)) ->
  t <= w_now (st_world (shared (callers_run name schedule c))).
Proof.
  revert c. induction schedule as [|who rest IH]; intros c Ht; cbn; auto.
  apply IH, callers_step_clock, Ht.
Qed.

Lemma callers_stepA_wp name c (Q : Callers -> Prop) :
  wp (FakeCert_step name (pcA c))
     (fun next s' =>
        Q match next with
          | Some pc' => {| shared := s'; pcA := pc'; pcB := pcB c |}
          | None => c
          end) (shared c) ->
  Q (callers_step name CallerA c).
Proof.
  unfold wp, callers_step.
  destruct (FakeCert_step name (pcA c) (shared c)) as [[pc'|] s']; auto.
Qed.

(** A step of the first caller keeps the invariant, as long as the clock
    stays within the cache TTL of the start. *)
Lemma memo_inv_stepA name n0 t0 c :
  memo_inv name n0 t0 c ->
  w_now (st_world (shared (callers_step name CallerA c)))
    < t0 + (TWO_WEEKS - ONE_DAY) ->
  memo_inv name n0 t0 (callers_step name CallerA c).
Proof.
  intros Hinv.
  apply (callers_stepA_wp name c
           (fun c' => w_now (st_world (shared c')) < t0 + (TWO_WEEKS - ONE_DAY) ->
                      memo_inv name n0 t0 c')).
  revert Hinv. destruct c as [s a b]. cbn [shared pcA pcB].
  unfold FakeCert_step, Cache_Get, Cache_Set, TLSCertificateFor, tls_X509KeyPair.
  destruct s as [h w].
  pose proof (next_tick_nonneg (w_ticks w)) as Hn0.
  pose proof (next_tick_nonneg (tail (w_ticks w))) as Hn1.
  destruct a; intros Hinv; wp_steps; cbn [shared pcA pcB]; intros Hnow; wp_simpl.
  all: try exact Hinv.
  all: unfold memo_inv in *; cbn [shared pcA pcB st_hw st_world] in *; wp_simpl.
  all: destruct Hinv as [Ht Hinv]; split; [ lia | ].
  all: try match goal with
       | |- context [Certificate_PEMEncoded ?c] =>
           cbn [Certificate_PEMEncoded];
           destruct (pkPem h) as [[?|?]|]; try destruct (Nat.eqb _ _)
       end.
  all: cbn [holds failed early signing orb andb] in *.
  all: try (left; reflexivity).
  all: destruct Hinv as [F | [F | [Hm [Hx Hp]]]];
    [ first [ discriminate F | left; exact F | destruct r; first [discriminate F | left; exact F] ]
    | right; left; exact F
    | right; right ].
  all: destruct Hp as [[Hc [Ha [Hb Hn]]] | [e' [He' [Hexp [Hn [Ha Hb]]]]]].
  all: try discriminate Ha.
  all: try (destruct Ha as [Ha|[Ha|[Ha|[Ha|Ha]]]]; discriminate Ha).
  all: unfold cold in *; cbn [st_hw st_world] in *; wp_simpl.
  all: repeat match goal with
       | H : (_ <? _) = true |- _ => apply Z.ltb_lt in H
       | H : (_ <? _) = false |- _ => apply Z.ltb_ge in H
       | H : ?m !! ?k = Some _, H' : ?m !! ?k = Some _ |- _ =>
           rewrite H in H'; injection H' as <-
       | H : ?m !! ?k = _, H' : context [?m !! ?k] |- _ => rewrite H in H'
       end.
  all: try tlia.
  all: split; [ first [ assumption | reflexivity | congruence ] | ].
  all: split; [ first [ assumption | reflexivity | congruence ] | ].
  all: first
    [ solve
        [ left; split;
          [ rewrite ?lookup_delete_eq;
            repeat match goal with
                   | H : ?l = _ |- context [?l] => rewrite H
                   end;
            first [ exact I | assumption
                  | destruct (dynamicCerts h !! name); [ tlia | exact I ] ]
          | repeat split; first [ assumption | reflexivity | lia ] ] ]
    | solve
        [ right; eexists; split;
          [ first [ eassumption | apply lookup_insert_eq ] | ];
          cbn [data expiration];
          destruct b; try discriminate; cbn [signing] in *;
          (split; [ tlia | ]); (split; [ lia | ]);
          unfold settled in *; split; auto 10 ]
    | solve
        [ destruct Ha as [Ha|[Ha|[Ha|[Ha|Ha]]]]; try discriminate Ha;
          injection Ha as ->; right; exists e'; unfold settled; auto 10 ] ].
Qed.

Lemma memo_inv_step name n0 t0 who c :
  memo_inv name n0 t0 c ->
  w_now (st_world (shared (callers_step name who c)))
    < t0 + (TWO_WEEKS - ONE_DAY) ->
  memo_inv name n0 t0 (callers_step name who c).
Proof.
  destruct who.
  - apply memo_inv_stepA.
  - rewrite callers_step_swap. intros Hinv Hnow.
    apply memo_inv_swap, memo_inv_stepA.
    + apply memo_inv_swap, Hinv.
    + exact Hnow.
Qed.

Lemma memo_inv_run name n0 t0 schedule c :
  memo_inv name n0 t0 c ->
  w_now (st_world (shared (callers_run name schedule c)))
    < t0 + (TWO_WEEKS - ONE_DAY) ->
  memo_inv name n0 t0 (callers_run name schedule c).
Proof.
  revert c. induction schedule as [|who rest IH]; intros c Hinv Hnow; cbn in *.
  - exact Hinv.
  - apply IH; [ | exact Hnow ].
    apply memo_inv_step; [ exact Hinv | ].
    eapply Z.le_lt_trans; [ | exact Hnow ].
    apply (callers_run_clock name rest (callers_step name who c)). lia.
Qed.

(** C4. Two callers ask for the leaf of the same host, the mutex free and
    the cache holding nothing it could serve for that host, and run
    interleaved in any order (one after the other included).  If both have
    returned a key pair and the clock is still within the cache TTL of the
    start, the two key pairs are the same and exactly one certificate was
    signed in between. *)
Theorem FakeCertForName_memoized (name : string) (schedule : list Caller)
    (s : State) (k1 k2 : tls_Certificate) :
  let c' := callers_run name schedule
              {| shared := s; pcA := PcGet1; pcB := PcGet1 |} in
  certMutex (st_hw s) = false ->
  cold name s ->
  w_now (st_world (shared c')) < w_now (st_world s) + (TWO_WEEKS - ONE_DAY) ->
  pcA c' = PcDone (Ok k1) ->
  pcB c' = PcDone (Ok k2) ->
  k1 = k2 /\ w_signed (st_world (shared c')) = S (w_signed (st_world s)).
Proof.
  intros c' Hmutex Hcold Hnow HA HB.
  assert (Hinv : memo_inv name (w_signed (st_world s)) (w_now (st_world s)) c').
  { apply memo_inv_run; [ | exact Hnow ].
    unfold memo_inv. cbn. split; [ lia | ].
    right; right. rewrite Hmutex.
    split; [ reflexivity | ]. split; [ reflexivity | ].
    left. repeat split; auto. lia. }
  destruct Hinv as [_ [F | [F | [_ [_ Hp]]]]].
  - rewrite HA in F. discriminate F.
  - rewrite HB in F. discriminate F.
  - rewrite HA, HB in Hp.
    destruct Hp as [[_ [Ha _]] | [e [_ [_ [Hn [Ha Hb]]]]]]; [ discriminate Ha | ].
    split; [ | exact Hn ].
    destruct Ha as [Ha|[Ha|[Ha|[Ha|Ha]]]]; try discriminate Ha.
    destruct Hb as [Hb|[Hb|[Hb|[Hb|Hb]]]]; try discriminate Hb.
    congruence.
Qed.

(** A caller alone runs [FakeCertForName]. *)
Lemma FakeCert_run_alone name s :
  certMutex (st_hw s) = false ->
  FakeCert_run 7 name PcGet1 s =
  (PcDone (FakeCertForName name s).1, (FakeCertForName name s).2).
Proof.
  intros Hm. destruct s as [h w]. cbn in Hm.
  unfold FakeCert_run, FakeCert_step, FakeCertForName, Cache_Get, Cache_Set,
    TLSCertificateFor, tls_X509KeyPair, time_Now, draw_fault,
    bind, ret, get_hw, get_world, modify_hw, modify_world.
  cbn.
  destruct (dynamicCerts h !! name) as [e|] eqn:He; cbn.
  - destruct (expiration e <? _) eqn:Hx; cbn; [ | reflexivity ].
    repeat (progress (rewrite ?Hm, ?lookup_delete_eq); cbn).
    destruct (pk h); cbn; [ | reflexivity ].
    destruct (w_faults w) as [|[|] [|[|] ?]]; cbn; try reflexivity.
    all: destruct (pkPem h) as [[?|?]|]; cbn; try reflexivity.
    all: destruct (Nat.eqb _ _); reflexivity.
  - repeat (progress (rewrite ?Hm, ?He); cbn).
    destruct (pk h); cbn; [ | reflexivity ].
    destruct (w_faults w) as [|[|] [|[|] ?]]; cbn; try reflexivity.
    all: destruct (pkPem h) as [[?|?]|]; cbn; try reflexivity.
    all: destruct (Nat.eqb _ _); reflexivity.
Qed.

(** ** The handlers and their traces *)

Lemma run_wp {A} (m : M A) (P : A -> list Event -> Prop) s :
  wp m (fun a st => P a (w_trace (st_world st))) (fresh_trace s) ->
  P (m (fresh_trace s)).1 (events m s).
Proof. auto. Qed.

Lemma append_empty (s : string) : s +:+ "" = s.
Proof.
  induction s as [|c s IH]; [ reflexivity | ].
  change (String c (s +:+ "") = String c s). now rewrite IH.
Qed.

(** *** Quiet stretches of a trace *)

Lemma bytes_on_quiet conn evs rest :
  forallb quiet evs = true -> bytes_on conn (evs ++ rest)%list = bytes_on conn rest.
Proof.
  induction evs as [|e evs IH]; cbn [forallb app]; [ reflexivity | ].
  intros [He Hq]%andb_prop. destruct e; try discriminate He; cbn [bytes_on]; auto.
Qed.

Lemma filter_quiet (p : Event -> bool) evs rest :
  (forall e, quiet e = true -> p e = false) ->
  forallb quiet evs = true ->
  List.filter p (evs ++ rest)%list = List.filter p rest.
Proof.
  intros Hp. induction evs as [|e evs IH]; cbn [forallb app]; [ reflexivity | ].
  intros [He Hq]%andb_prop. cbn [List.filter]. rewrite (Hp e He). auto.
Qed.

Lemma existsb_quiet (p : Event -> bool) evs rest :
  (forall e, quiet e = true -> p e = false) ->
  forallb quiet evs = true ->
  existsb p (evs ++ rest)%list = existsb p rest.
Proof.
  intros Hp. induction evs as [|e evs IH]; cbn [forallb app]; [ reflexivity | ].
  intros [He Hq]%andb_prop. cbn [existsb]. rewrite (Hp e He). cbn [orb]. auto.
Qed.

Lemma quiet_not_write e : quiet e = true -> is_write e = false.
Proof. destruct e; auto; discriminate. Qed.
Lemma quiet_not_filter e : quiet e = true -> is_filter e = false.
Proof. destruct e; auto; discriminate. Qed.
Lemma quiet_not_recv e : quiet e = true -> is_recv e = false.
Proof. destruct e; auto; discriminate. Qed.
Lemma quiet_not_http_dump e : quiet e = true -> is_http_dump e = false.
Proof. destruct e as [| [] | | | | | | | | |]; auto; discriminate. Qed.

(** *** The observer *)

(** The observer leaves the handler and the network as they are and adds to
    the trace the mark of its call and then only log lines and its POST. *)
Lemma filter_effect r q s :
  exists evs,
    forallb quiet evs = true /\
    st_hw (filter r q s).2 = st_hw s /\
    w_net (st_world (filter r q s).2) = w_net (st_world s) /\
    w_trace (st_world (filter r q s).2)
      = (w_trace (st_world s) ++ EvFilter r q :: evs)%list.
Proof.
  change (wp (filter r q)
            (fun _ s' => exists evs,
               forallb quiet evs = true /\
               st_hw s' = st_hw s /\
               w_net (st_world s') = w_net (st_world s) /\
               w_trace (st_world s')
                 = (w_trace (st_world s) ++ EvFilter r q :: evs)%list) s).
  destruct s as [h w]. cbn [st_hw st_world]. unfold filter.
  wp_steps.
  all: rewrite <- ?app_assoc; cbn [app].
  all: eexists; split; [ | split; [ reflexivity | split; [ reflexivity | reflexivity ] ] ].
  all: reflexivity.
Qed.

Lemma wp_filter r q (Q : unit -> State -> Prop) s :
  (forall s' evs,
     forallb quiet evs = true ->
     st_hw s' = st_hw s ->
     w_net (st_world s') = w_net (st_world s) ->
     w_trace (st_world s') = (w_trace (st_world s) ++ EvFilter r q :: evs)%list ->
     Q tt s') ->
  wp (filter r q) Q s.
Proof.
  intros H. destruct (filter_effect r q s) as [evs [Hq [Hh [Hn Ht]]]].
  unfold wp. destruct (filter r q s) as [[] s']. eapply H; eauto.
Qed.

Ltac handler_paths :=
  unfold DumpHTTPAndHTTPs, relay, exchange, shared_err, Forward,
    connectProxyServer, Transport, InterceptHTTPs, respBadGateway, conn_Write;
  repeat first
    [ wp_step
    | lazymatch goal with
      | |- wp (filter _ _) _ _ =>
          apply wp_filter;
          let s' := fresh "s'" in
          let evs := fresh "evs" in
          let Hq := fresh "Hquiet" in
          let Hh := fresh "Hhw" in
          let Hn := fresh "Hnet" in
          let Ht := fresh "Htrace" in
          intros s' evs Hq Hh Hn Ht; wp_simpl
      end ].

(** Brings the trace of a finished path into view. *)
Ltac trace_view :=
  repeat match goal with
         | H : w_trace (st_world ?s') = _ |- context [w_trace (st_world ?s')] =>
             rewrite H
         end;
  rewrite <- ?app_assoc; cbn [app].


Lemma forallb_quiet (p : Event -> bool) evs rest :
  (forall e, quiet e = true -> p e = true) ->
  forallb quiet evs = true ->
  forallb p (evs ++ rest)%list = forallb p rest.
Proof.
  intros Hp. induction evs as [|e evs IH]; cbn [forallb app]; [ reflexivity | ].
  intros [He Hq]%andb_prop. rewrite (Hp e He). cbn [andb]. auto.
Qed.

Lemma quiet_with_response e : quiet e = true -> with_response e = true.
Proof. destruct e; auto; discriminate. Qed.

Ltac trace_compute :=
  unfold count, occurs;
  repeat first
    [ progress cbn [List.filter existsb forallb before after bytes_on last length
                    is_log is_dial is_recv is_filter is_post is_write is_502
                    is_copy is_http_dump is_send_request with_response quiet
                    orb andb negb]
    | rewrite (filter_quiet is_write) by (assumption || exact quiet_not_write)
    | rewrite (filter_quiet is_filter) by (assumption || exact quiet_not_filter)
    | rewrite (existsb_quiet is_write) by (assumption || exact quiet_not_write)
    | rewrite (existsb_quiet is_recv) by (assumption || exact quiet_not_recv)
    | rewrite (existsb_quiet is_http_dump) by (assumption || exact quiet_not_http_dump)
    | rewrite (forallb_quiet with_response) by (assumption || exact quiet_with_response)
    | rewrite bytes_on_quiet by assumption ].

(** The observer within the relay: it is called as often as the relay
    writes to the client, at most once; the write comes before the call and
    none after it; it is handed a response; the bytes on a socket are those
    written before the call. *)
Lemma DumpHTTPAndHTTPs_observer s resp req :
  let t := events (DumpHTTPAndHTTPs resp req) s in
  count is_filter t = count is_write t /\
  (count is_filter t <= 1)%nat /\
  occurs is_write (before is_filter t) = occurs is_filter t /\
  occurs is_write (after is_filter t) = false /\
  forallb with_response t = true /\
  forall conn, bytes_on conn (before is_filter t) = bytes_on conn t.
Proof.
  apply (run_wp (DumpHTTPAndHTTPs resp req)
           (fun _ t =>
              count is_filter t = count is_write t /\
              (count is_filter t <= 1)%nat /\
              occurs is_write (before is_filter t) = occurs is_filter t /\
              occurs is_write (after is_filter t) = false /\
              forallb with_response t = true /\
              forall conn, bytes_on conn (before is_filter t) = bytes_on conn t)).
  destruct s as [h w]. unfold fresh_trace. cbn [st_hw st_world].
  handler_paths.
  all: trace_view.
  all: trace_compute.
  all: repeat split; try reflexivity; try lia.
  all: intros conn; trace_compute; reflexivity.
Qed.

(** The relay after a network error upstream, the client socket hijacked:
    the goroutine that dumps the request was started and the handler leaves
    without having received from its channel; the dial was made once and the
    request sent at most once; a line was logged after the dial; nothing was
    written to the client and the observer was not called; closing the
    client socket is the last thing done; the handler returns or panics. *)
Lemma DumpHTTPAndHTTPs_error_path s resp req connIn :
  rw_hijack resp = inr connIn ->
  upstream_error s req ->
  let t := events (DumpHTTPAndHTTPs resp req) s in
  head t = Some (EvGo (TaskDumpRequest (keep_alive req))) /\
  occurs is_recv t = false /\
  count is_dial t = 1%nat /\
  (count is_send_request t <= 1)%nat /\
  occurs is_log (after is_dial t) = true /\
  occurs is_write t = false /\
  occurs is_filter t = false /\
  last t = Some (EvClose (conn_name connIn)) /\
  serve_recover (exit_of (DumpHTTPAndHTTPs resp req) s) = Alive.
Proof.
  intros Hhijack Herr.
  apply (run_wp (DumpHTTPAndHTTPs resp req)
           (fun x t =>
              head t = Some (EvGo (TaskDumpRequest (keep_alive req))) /\
              occurs is_recv t = false /\
              count is_dial t = 1%nat /\
              (count is_send_request t <= 1)%nat /\
              occurs is_log (after is_dial t) = true /\
              occurs is_write t = false /\
              occurs is_filter t = false /\
              last t = Some (EvClose (conn_name connIn)) /\
              serve_recover x = Alive)).
  destruct s as [h w]. unfold fresh_trace. cbn [st_hw st_world].
  destruct Herr as [Hd | c e Hd Hw | c e Hd Hw Hr];
    unfold dialed in Hd; cbn [st_hw st_world] in Hd;
    destruct (negb (https h)) eqn:Hplain.
  all: handler_paths.
  all: trace_view.
  all: trace_compute.
  all: cbn [head serve_recover].
  all: repeat split; try reflexivity; try lia.
Qed.

Ltac in_trace := cbn [In strings_Join]; repeat first [ left; reflexivity | right ].

Ltac absurd_decide :=
  match goal with
  | H : bool_decide _ = true |- _ =>
      apply bool_decide_eq_true_1 in H; congruence
  | H : bool_decide _ = false |- _ =>
      apply bool_decide_eq_false_1 in H; congruence
  end.

(** [FakeCertForName] leaves the trace and the network alone. *)
Lemma FakeCertForName_silent name s :
  w_trace (st_world (FakeCertForName name s).2) = w_trace (st_world s) /\
  w_net (st_world (FakeCertForName name s).2) = w_net (st_world s) /\
  tlsConfig (st_hw (FakeCertForName name s).2) = tlsConfig (st_hw s).
Proof.
  change (wp (FakeCertForName name)
            (fun _ s' => w_trace (st_world s') = w_trace (st_world s) /\
                         w_net (st_world s') = w_net (st_world s) /\
                         tlsConfig (st_hw s') = tlsConfig (st_hw s)) s).
  destruct s as [h w].
  unfold FakeCertForName, Cache_Get, Cache_Set, TLSCertificateFor, tls_X509KeyPair.
  wp_steps. all: auto.
Qed.

Lemma wp_FakeCertForName name (Q : Result tls_Certificate -> State -> Prop) s :
  (forall r s',
     w_trace (st_world s') = w_trace (st_world s) ->
     w_net (st_world s') = w_net (st_world s) ->
     tlsConfig (st_hw s') = tlsConfig (st_hw s) ->
     Q r s') ->
  wp (FakeCertForName name) Q s.
Proof.
  intros H. destruct (FakeCertForName_silent name s) as [Ht [Hn Hc]].
  unfold wp. apply H; assumption.
Qed.

Ltac intercept_paths :=
  unfold InterceptHTTPs, respBadGateway, conn_Write;
  repeat first
    [ wp_step
    | lazymatch goal with
      | |- wp (FakeCertForName _) _ _ =>
          apply wp_FakeCertForName;
          let r := fresh "r" in
          let s' := fresh "s'" in
          let Ht := fresh "Htrace" in
          let Hn := fresh "Hnet" in
          let Hc := fresh "Hcfg" in
          intros r s' Ht Hn Hc; wp_simpl
      end ].

(** What [InterceptHTTPs] does, by the outcome of the mint and of the
    hijack: a 502 and nothing else when either fails; with both, the serving
    goroutine and then the ACK on the hijacked socket, nothing more. *)
Lemma InterceptHTTPs_events s resp req :
  let t := events (InterceptHTTPs resp req) s in
  t = [] \/
  (exists msg, t = [EvLog StdLog msg; EvWriteHeader 502; EvBody msg] /\
               exit_of (InterceptHTTPs resp req) s = Returned) \/
  (exists connIn config,
     rw_hijack resp = inr connIn /\
     t = [EvGo (TaskServe connIn config);
          EvWrite (conn_name connIn) ACK (bool_decide (conn_writeErr connIn = None))]).
Proof.
  apply (run_wp (InterceptHTTPs resp req)
           (fun x t =>
              t = [] \/
              (exists msg, t = [EvLog StdLog msg; EvWriteHeader 502; EvBody msg] /\
                           x = Returned) \/
              (exists connIn config,
                 rw_hijack resp = inr connIn /\
                 t = [EvGo (TaskServe connIn config);
                      EvWrite (conn_name connIn) ACK
                        (bool_decide (conn_writeErr connIn = None))]))).
  destruct s as [h w]. unfold fresh_trace. cbn [st_hw st_world].
  intercept_paths.
  all: rewrite Htrace; cbn [with_trace w_trace app strings_Join].
  all: first
    [ left; reflexivity
    | right; left; eexists; split; reflexivity
    | right; right; eexists _, _; split; reflexivity ].
Qed.

(** When the hijack fails, the relay logs and then panics on the nil
    connection, and the forwarder goes on to dial: neither replies 502.  (Of
    the three handlers only [InterceptHTTPs] does, see
    [InterceptHTTPs_events].) *)
Lemma hijack_failure_without_502 (Version : string) (s : State)
    (resp : ResponseWriter) (req : Request) (raddr : string) (e : error) :
  rw_hijack resp = inl e ->
  (occurs is_502 (events (DumpHTTPAndHTTPs resp req) s) = false /\
   exit_of (DumpHTTPAndHTTPs resp req) s = Panicked nil_dereference) /\
  (occurs is_502 (events (Forward Version resp req raddr) s) = false /\
   head (events (Forward Version resp req raddr) s) = Some (EvDial false raddr)).
Proof.
  intros Hhijack. split.
  - apply (run_wp (DumpHTTPAndHTTPs resp req)
             (fun x t => occurs is_502 t = false /\ x = Panicked nil_dereference)).
    destruct s as [h w]. unfold fresh_trace. cbn [st_hw st_world].
    handler_paths. all: trace_view; trace_compute; split; reflexivity.
  - apply (run_wp (Forward Version resp req raddr)
             (fun _ t => occurs is_502 t = false /\
                         head t = Some (EvDial false raddr))).
    destruct s as [h w]. unfold fresh_trace. cbn [st_hw st_world].
    handler_paths. all: trace_view; trace_compute; split; reflexivity.
Qed.

(** A CONNECT request is forwarded, the upstream proxy answers the preamble
    with a status other than 200: the forwarder logs the error of
    [connectProxyServer] and goes on, writes the 200 ACK to the client and
    starts both copying goroutines. *)
Lemma Forward_tunnels_after_refusal (Version : string) (s : State)
    (resp : ResponseWriter) (req : Request) (raddr : string)
    (connIn c : Conn) (r : Response) :
  Method req = "CONNECT" ->
  rw_hijack resp = inr connIn ->
  conn_writeErr connIn = None ->
  tcp (w_net (st_world s)) !! raddr = Some c ->
  conn_writeErr c = None ->
  conn_response c = inr r ->
  StatusCode r <> 200 ->
  let t := events (Forward Version resp req raddr) s in
  In (EvLog Logger (strings_Join ["connectProxyServer error:"; Status r] " ")) t /\
  bytes_on (conn_name connIn) t = Established Version /\
  count is_copy t = 2%nat /\
  exit_of (Forward Version resp req raddr) s = Returned.
Proof.
  intros Hmethod Hhijack Hin Hdial Hout Hresp Hstatus.
  assert (Hconnect : String.eqb (Method req) "CONNECT" = true)
    by (rewrite Hmethod; reflexivity).
  assert (Hnot200 : negb (StatusCode r =? 200) = true)
    by (apply negb_true_iff, Z.eqb_neq, Hstatus).
  apply (run_wp (Forward Version resp req raddr)
           (fun x t =>
              In (EvLog Logger
                    (strings_Join ["connectProxyServer error:"; Status r] " ")) t /\
              bytes_on (conn_name connIn) t = Established Version /\
              count is_copy t = 2%nat /\
              x = Returned)).
  destruct s as [h w]. unfold fresh_trace. cbn [st_hw st_world] in *.
  unfold Forward. rewrite Hhijack.
  handler_paths.
  all: try (rewrite Hdial in *; absurd_decide).
  all: try absurd_decide.
  all: try discriminate.
  all: trace_view; trace_compute.
  all: repeat match goal with
              | H : Ok _ = Ok _ |- _ => clear H
              | H : Err _ = Err _ |- _ => injection H as <-
              end.
  all: try rewrite Hin; cbn [bool_decide decide_rel]; rewrite ?String.eqb_refl, ?append_empty.
  all: repeat split; try reflexivity; try in_trace.
Qed.

(** ** The intercepted socket *)

Lemma socket_inv_step conn a k :
  socket_inv conn k -> socket_inv conn (socket_step conn Patient a k).
Proof.
  destruct k as [td sv hl wr]. unfold socket_inv, socket_step.
  cbn [todo serving hello wire].
  intros [[-> [-> [Hsv Hw]]] | [n [-> Hw]]].
  - destruct a.
    + destruct td as [|e rest]; [ left; cbn; auto | ].
      destruct e as [| [] | | | | ? ? [] | | | | |];
        cbn [writes_on] in Hw; cbn [todo serving hello wire];
        try (left; repeat split; auto; fail).
      * destruct (String.eqb _ _); cbn [todo serving hello wire];
          left; repeat split; auto; discriminate.
      * destruct (String.eqb _ _); cbn [todo serving hello wire].
        -- destruct Hw as [Hw | Hw]; [ discriminate | ].
           injection Hw as -> Hw. right. exists 0%nat. split; [ reflexivity | exact Hw ].
        -- left; repeat split; auto.
    + destruct sv as [[]|]; cbn [todo serving hello wire];
        first [ left; repeat split; auto; fail | contradiction ].
    + cbn. left; repeat split; auto.
  - destruct a.
    + destruct td as [|e rest]; [ right; exists n; cbn; auto | ].
      destruct e as [| [] | | | | ? ? [] | | | | |];
        cbn [writes_on] in Hw; cbn [todo serving hello wire];
        try (right; exists n; split; auto; fail).
      * destruct (String.eqb _ _); cbn [todo serving hello wire];
          right; exists n; split; auto.
      * destruct (String.eqb _ _); cbn [todo serving hello wire];
          [ discriminate | right; exists n; split; auto ].
    + destruct sv as [[]|]; cbn [todo serving hello wire].
      * destruct hl; right; exists n; split; auto.
      * right. exists (S n). split; [ | exact Hw ].
        cbn [app]. f_equal. symmetry. apply replicate_S_end.
      * right; exists n; split; auto.
    + cbn. right; exists n; split; auto.
Qed.

Lemma socket_inv_run conn schedule k :
  socket_inv conn k -> socket_inv conn (socket_run conn Patient schedule k).
Proof.
  revert k. induction schedule as [|a rest IH]; intros k Hk; cbn; auto.
  apply IH, socket_inv_step, Hk.
Qed.

Lemma socket_inv_intercepted conn resp req s :
  socket_inv conn (intercepted resp req s).
Proof.
  unfold socket_inv, intercepted. cbn [todo serving hello wire].
  left. repeat split; [ discriminate | ].
  destruct (InterceptHTTPs_events s resp req)
    as [-> | [[msg [-> _]] | [connIn [config [_ ->]]]]]; cbn [writes_on]; auto.
  destruct (bool_decide _); [ destruct (String.eqb _ _) | ]; auto.
Qed.

(** C1, as the code has it.  [InterceptHTTPs] starts the serving goroutine
    before it writes the ACK, and the goroutine answers a ClientHello as
    soon as one is there.  With a client that sends its ClientHello only
    once a plaintext reply has reached it, however the handler, the
    goroutine and the client interleave, the wire carries nothing, or the
    ACK followed by TLS records only: every TLS record comes after the
    ACK. *)
Theorem InterceptHTTPs_ack_first_patient (conn : string) (resp : ResponseWriter)
    (req : Request) (s : State) (schedule : list Actor) :
  let w := wire (socket_run conn Patient schedule (intercepted resp req s)) in
  ack_precedes w /\
  (w = [] \/ exists n, w = Plain ACK :: replicate n TlsRecord).
Proof.
  cbv zeta.
  pose proof (socket_inv_run conn schedule _
                (socket_inv_intercepted conn resp req s)) as Hinv.
  destruct Hinv as [[-> _] | [n [-> _]]].
  - split; [ | left; reflexivity ].
    intros i Hi. rewrite lookup_nil in Hi. discriminate.
  - split; [ | right; exists n; reflexivity ].
    intros [|i] Hi; [ discriminate Hi | ].
    exists 0%nat. split; [ lia | reflexivity ].
Qed.

(** ** The relay and its observer *)

(** C6.  The client socket hijacked, a network error upstream (at the dial,
    TLS or plain, at the write of the request or at the read of the
    response): a line is logged after the dial; there was one dial and at
    most one write of the request, so no retry; nothing goes to the client
    and the observer is not called; the last thing done is to close the
    client socket; and the handler returns or panics in its own goroutine,
    which the HTTP server recovers, so the process lives on. *)
Theorem DumpHTTPAndHTTPs_upstream_error_policy (s : State)
    (resp : ResponseWriter) (req : Request) (connIn : Conn) :
  rw_hijack resp = inr connIn ->
  upstream_error s req ->
  let t := events (DumpHTTPAndHTTPs resp req) s in
  occurs is_log (after is_dial t) = true /\
  count is_dial t = 1%nat /\
  (count is_send_request t <= 1)%nat /\
  occurs is_write t = false /\
  occurs is_filter t = false /\
  last t = Some (EvClose (conn_name connIn)) /\
  serve_recover (exit_of (DumpHTTPAndHTTPs resp req) s) = Alive.
Proof.
  intros Hhijack Herr.
  destruct (DumpHTTPAndHTTPs_error_path s resp req connIn Hhijack Herr)
    as (_ & _ & Hdial & Hsend & Hlog & Hwrite & Hfilter & Hlast & Hexit).
  cbv zeta. tauto.
Qed.


(** C10.  The observer is never handed a nil response; and when the dial
    and the write of the request succeed but no response is read, the relay
    logs that [respOut] is nil and returns: nothing is written to the
    client, the observer is not called, no monitor dump is started. *)
Theorem DumpHTTPAndHTTPs_nil_response (s : State) (resp : ResponseWriter)
    (req : Request) :
  let t := events (DumpHTTPAndHTTPs resp req) s in
  forallb with_response t = true /\
  forall connIn c e,
    rw_hijack resp = inr connIn ->
    dialed s req = Some c ->
    conn_writeErr c = None ->
    conn_response c = inl e ->
    exit_of (DumpHTTPAndHTTPs resp req) s = Returned /\
    In (EvLog StdLog "respOut is nil") t /\
    occurs is_write t = false /\
    bytes_on (conn_name connIn) t = "" /\
    occurs is_filter t = false /\
    occurs is_http_dump t = false.
Proof.
  cbv zeta. split.
  { apply (DumpHTTPAndHTTPs_observer s resp req). }
  intros connIn c e Hhijack Hd Hw Hr.
  apply (run_wp (DumpHTTPAndHTTPs resp req)
           (fun x t =>
              x = Returned /\
              In (EvLog StdLog "respOut is nil") t /\
              occurs is_write t = false /\
              bytes_on (conn_name connIn) t = "" /\
              occurs is_filter t = false /\
              occurs is_http_dump t = false)).
  destruct s as [h w]. unfold fresh_trace. cbn [st_hw st_world].
  unfold dialed in Hd; cbn [st_hw st_world] in Hd.
  destruct (negb (https h)) eqn:Hplain.
  all: handler_paths.
  all: trace_view; trace_compute.
  all: repeat split; try reflexivity; in_trace.
Qed.

(** ** Where the code departs from the specification, at one input each *)

(** C5.  A plain GET for a host that cannot be dialled: the goroutine that
    dumps the request is started, the dial fails, and the handler logs,
    closes the client socket and returns without ever receiving from the
    goroutine's channel. *)
Theorem relay_returns_without_rendezvous :
  let t := events (DumpHTTPAndHTTPs ex_hijackable ex_get_nowhere) ex_ready in
  head t = Some (EvGo (TaskDumpRequest (keep_alive ex_get_nowhere))) /\
  occurs is_recv t = false /\
  last t = Some (EvClose "client") /\
  exit_of (DumpHTTPAndHTTPs ex_hijackable ex_get_nowhere) ex_ready = Returned.
Proof.
  assert (Herr : upstream_error ex_ready ex_get_nowhere)
    by (apply dial_fails; vm_compute; reflexivity).
  destruct (DumpHTTPAndHTTPs_error_path ex_ready ex_hijackable ex_get_nowhere
              ex_client eq_refl Herr)
    as (Hgo & Hrecv & _ & _ & _ & _ & _ & Hlast & _).
  cbv zeta. repeat split; auto; vm_compute; reflexivity.
Qed.

(** C7.  A response writer that cannot be hijacked: the relay logs and
    panics on the nil connection, the forwarder dials on and ends in the
    panic of a copying goroutine; neither replies 502.  Only
    [InterceptHTTPs] does. *)
Theorem hijack_failure_replies_no_502 :
  (occurs is_502 (events (DumpHTTPAndHTTPs ex_unhijackable ex_get) ex_ready) = false /\
   exit_of (DumpHTTPAndHTTPs ex_unhijackable ex_get) ex_ready
     = Panicked nil_dereference) /\
  (occurs is_502 (events (Forward "1.0" ex_unhijackable ex_get "127.0.0.1:8888") ex_ready)
     = false /\
   exit_of (Forward "1.0" ex_unhijackable ex_get "127.0.0.1:8888") ex_ready
     = Crashed nil_dereference) /\
  occurs is_502 (events (InterceptHTTPs ex_unhijackable ex_connect) ex_ready) = true.
Proof.
  destruct (hijack_failure_without_502 "1.0" ex_ready ex_unhijackable ex_get
              "127.0.0.1:8888" _ eq_refl) as [[H1 H2] [H3 _]].
  repeat split; auto; vm_compute; reflexivity.
Qed.

(** C8.  A CONNECT forwarded through an upstream proxy that answers 407:
    the forwarder logs the error, then writes the 200 ACK to the client and
    starts both copying goroutines all the same. *)
Theorem refused_forward_still_tunnels :
  let t := events (Forward "1.0" ex_hijackable ex_connect "127.0.0.1:8888") ex_ready in
  In (EvLog Logger "connectProxyServer error: 407 Proxy Authentication Required") t /\
  bytes_on "client" t = Established "1.0" /\
  count is_copy t = 2%nat /\
  exit_of (Forward "1.0" ex_hijackable ex_connect "127.0.0.1:8888") ex_ready = Returned.
Proof.
  apply (Forward_tunnels_after_refusal "1.0" ex_ready ex_hijackable ex_connect
           "127.0.0.1:8888" ex_client ex_upstream ex_refusal);
    first [ reflexivity | discriminate ].
Qed.

(** ** The theorems at concrete inputs, and inputs that the specification's
    wording does not cover *)

Lemma ex_AddDate_year_month (t : Time) :
  ex_AddDate 0 ONE_MONTH 0 t <= ex_AddDate ONE_YEAR 0 0 t.
Proof. unfold ex_AddDate, ONE_MONTH, ONE_YEAR. tlia. Qed.

(** The start-up on an empty disk signs a CA that is fresh and persists it. *)
Lemma GenerateCertForClient_ca_fresh_witness :
  exists c,
    issuingCert (st_hw ex_ready) = Some c /\
    issuingCertPem (st_hw ex_ready) = Some (PemCert c) /\
    ex_AddDate 0 ONE_MONTH 0 (w_now (st_world ex_ready)) <= cert_NotAfter c /\
    ((w_signed (st_world ex_ready) = w_signed (st_world ex_boot) /\
      w_files (st_world ex_ready) !! CertFile (tlsConfig (st_hw ex_ready))
        = Some (PemCert c))
     \/
     (w_signed (st_world ex_ready) = S (w_signed (st_world ex_boot)) /\
      cert_IsCA c = true /\ cert_IssuerSerial c = None /\
      cert_NotAfter c = ex_AddDate ONE_YEAR 0 0 (w_now (st_world ex_ready)) /\
      w_files (st_world ex_ready) !! CertFile (tlsConfig (st_hw ex_ready))
        = Some (PemCert c))).
Proof.
  apply (GenerateCertForClient_ca_fresh "1.0" ex_AddDate ex_AddDate_year_month
           ex_boot ex_ready).
  vm_compute. reflexivity.
Defined.



(** Two interleaved callers end with the same key pair and one signature. *)
Lemma FakeCertForName_memoized_witness :
  exists k1 k2,
    pcA ex_callers = PcDone (Ok k1) /\
    pcB ex_callers = PcDone (Ok k2) /\
    k1 = k2 /\
    w_signed (st_world (shared ex_callers)) = S (w_signed (st_world ex_prompt)).
Proof.
  eexists _, _. split; [ vm_compute; reflexivity | ].
  split; [ vm_compute; reflexivity | ].
  apply (FakeCertForName_memoized "example.test" ex_schedule ex_prompt).
  - vm_compute. reflexivity.
  - vm_compute. exact I.
  - vm_compute. reflexivity.
  - vm_compute. reflexivity.
  - vm_compute. reflexivity.
Defined.

(** An intercepted request whose TLS dial fails. *)
Lemma DumpHTTPAndHTTPs_upstream_error_policy_witness :
  let t := events (DumpHTTPAndHTTPs ex_hijackable ex_get) ex_intercepted in
  occurs is_log (after is_dial t) = true /\
  count is_dial t = 1%nat /\
  (count is_send_request t <= 1)%nat /\
  occurs is_write t = false /\
  occurs is_filter t = false /\
  last t = Some (EvClose (conn_name ex_client)) /\
  serve_recover (exit_of (DumpHTTPAndHTTPs ex_hijackable ex_get) ex_intercepted) = Alive.
Proof.
  apply (DumpHTTPAndHTTPs_upstream_error_policy ex_intercepted ex_hijackable
           ex_get ex_client).
  - reflexivity.
  - apply dial_fails. vm_compute. reflexivity.
Defined.

(** A host that accepts the request and resets the connection. *)
Lemma DumpHTTPAndHTTPs_nil_response_witness :
  let t := events (DumpHTTPAndHTTPs ex_hijackable ex_get_silent) ex_ready in
  exit_of (DumpHTTPAndHTTPs ex_hijackable ex_get_silent) ex_ready = Returned /\
  In (EvLog StdLog "respOut is nil") t /\
  occurs is_write t = false /\
  bytes_on (conn_name ex_client) t = "" /\
  occurs is_filter t = false /\
  occurs is_http_dump t = false.
Proof.
  apply (proj2 (DumpHTTPAndHTTPs_nil_response ex_ready ex_hijackable ex_get_silent)
           ex_client ex_silent "read tcp: connection reset by peer").
  - reflexivity.
  - vm_compute. reflexivity.
  - reflexivity.
  - reflexivity.
Defined.

(** An eager client: the goroutine's first TLS record is on the wire before
    the handler's ACK. *)
Lemma InterceptHTTPs_ack_first_counterexample :
  wire (socket_run "client" Eager ex_race
          (intercepted ex_hijackable ex_connect ex_ready))
    = [TlsRecord; Plain ACK] /\
  ~ ack_precedes [TlsRecord; Plain ACK].
Proof.
  split; [ vm_compute; reflexivity | ].
  intros H. destruct (H 0%nat eq_refl) as [j [Hj _]]. lia.
Qed.

(** ** Hosts and ports *)

Lemma append_cons (c : ascii) (s t : string) : String c s +:+ t = String c (s +:+ t).
Proof. reflexivity. Qed.

Lemma append_nil_l (t : string) : "" +:+ t = t.
Proof. reflexivity. Qed.

Lemma has_port_intro (p d : string) :
  d <> "" -> all_digits d = true -> has_port (p +:+ ":" +:+ d) = true.
Proof.
  intros Hd Hall. induction p as [|c p IH].
  - rewrite append_nil_l, append_cons, append_nil_l. cbn [has_port].
    rewrite Hall. destruct d; [ contradiction | reflexivity ].
  - rewrite append_cons. cbn [has_port]. rewrite IH. apply orb_true_r.
Qed.

(** X1.  The relay takes a host to name a port exactly when the host ends in a
    colon followed by one or more decimal digits. *)
Theorem has_port_suffix (host : string) :
  has_port host = true <->
  exists p d, host = p +:+ ":" +:+ d /\ d <> "" /\ all_digits d = true.
Proof.
  split.
  - induction host as [|c r IH]; [ discriminate | ].
    cbn [has_port]. intros [H | H]%orb_prop.
    + apply andb_prop in H as [[Hc Hr]%andb_prop Hd].
      apply Ascii.eqb_eq in Hc as ->.
      exists "", r. repeat split; auto.
      intros ->. discriminate Hr.
    + destruct (IH H) as (p & d & -> & Hd & Hall).
      exists (String c p), d. repeat split; auto.
  - intros (p & d & -> & Hd & Hall). apply has_port_intro; assumption.
Qed.

(** ** More of the relay *)

Lemma quiet_not_close e : quiet e = true -> is_close e = false.
Proof. destruct e; auto; discriminate. Qed.
Lemma quiet_not_dial e : quiet e = true -> is_dial e = false.
Proof. destruct e; auto; discriminate. Qed.
Lemma quiet_not_send_request e : quiet e = true -> is_send_request e = false.
Proof. destruct e; auto; discriminate. Qed.
Lemma quiet_not_502 e : quiet e = true -> is_502 e = false.
Proof. destruct e; auto; discriminate. Qed.
Lemma quiet_not_serve e : quiet e = true -> is_serve e = false.
Proof. destruct e; auto; discriminate. Qed.

Lemma quiet_carries r evs : forallb quiet evs = true -> Forall (carries r) evs.
Proof.
  induction evs as [|e evs IH]; cbn [forallb]; [ constructor | ].
  intros [He Hq]%andb_prop. constructor; [ | auto ].
  destruct e; try discriminate He; exact I.
Qed.

Ltac trace_compute_more :=
  unfold count, occurs;
  repeat first
    [ progress cbn [List.filter existsb forallb before after bytes_on length
                    is_log is_dial is_recv is_filter is_post is_write is_502
                    is_copy is_http_dump is_send_request is_close is_serve
                    with_response quiet orb andb negb]
    | rewrite (filter_quiet is_write) by (assumption || exact quiet_not_write)
    | rewrite (filter_quiet is_filter) by (assumption || exact quiet_not_filter)
    | rewrite (filter_quiet is_close) by (assumption || exact quiet_not_close)
    | rewrite (filter_quiet is_dial) by (assumption || exact quiet_not_dial)
    | rewrite (filter_quiet is_recv) by (assumption || exact quiet_not_recv)
    | rewrite (filter_quiet is_http_dump) by (assumption || exact quiet_not_http_dump)
    | rewrite (filter_quiet is_send_request)
        by (assumption || exact quiet_not_send_request)
    | rewrite (existsb_quiet is_write) by (assumption || exact quiet_not_write)
    | rewrite (existsb_quiet is_recv) by (assumption || exact quiet_not_recv)
    | rewrite (existsb_quiet is_http_dump) by (assumption || exact quiet_not_http_dump)
    | rewrite (existsb_quiet is_502) by (assumption || exact quiet_not_502)
    | rewrite (existsb_quiet is_serve) by (assumption || exact quiet_not_serve)
    | rewrite bytes_on_quiet by assumption ].


Lemma has_port_dial_address overTLS host :
  has_port (dial_address overTLS host) = true.
Proof.
  unfold dial_address. destruct (has_port host) eqn:H; [ exact H | ].
  destruct overTLS; apply has_port_intro; (discriminate || reflexivity).
Qed.

(** The one dial of the relay. *)
Lemma DumpHTTPAndHTTPs_dial s resp req :
  List.filter is_dial (events (DumpHTTPAndHTTPs resp req) s) =
    match rw_hijack resp with
    | inr _ => [EvDial (https (st_hw s))
                  (dial_address (https (st_hw s)) (Host req))]
    | inl _ => []
    end.
Proof.
  apply (run_wp (DumpHTTPAndHTTPs resp req)
           (fun _ t =>
              List.filter is_dial t =
                match rw_hijack resp with
                | inr _ => [EvDial (https (st_hw s))
                              (dial_address (https (st_hw s)) (Host req))]
                | inl _ => []
                end)).
  destruct s as [h w]. unfold fresh_trace, dial_address. cbn [st_hw st_world].
  handler_paths.
  all: trace_view; trace_compute_more.
  all: destruct (https h); try discriminate; reflexivity.
Qed.

(** X2.  The relay dials once when it has the client socket and not at all when
    the hijack failed; it dials over TLS exactly when the handler's [https]
    flag is up, at the request's host, to which it appends the port of the
    scheme (443 or 80) unless the host ends in a port of its own.  The
    address dialled always ends in a port. *)
Theorem DumpHTTPAndHTTPs_dials_with_port (s : State) (resp : ResponseWriter)
    (req : Request) :
  let t := events (DumpHTTPAndHTTPs resp req) s in
  let overTLS := https (st_hw s) in
  List.filter is_dial t =
    match rw_hijack resp with
    | inr _ => [EvDial overTLS (dial_address overTLS (Host req))]
    | inl _ => []
    end /\
  has_port (dial_address overTLS (Host req)) = true.
Proof.
  cbv zeta. split; [ apply DumpHTTPAndHTTPs_dial | apply has_port_dial_address ].
Qed.

(** X3.  The relay closes the client socket, once and as its last act, on every
    path on which it had hijacked it, and closes nothing else: the
    connection it dialled upstream is left open on every path. *)
Theorem DumpHTTPAndHTTPs_closes_client_only (s : State) (resp : ResponseWriter)
    (req : Request) :
  let t := events (DumpHTTPAndHTTPs resp req) s in
  match rw_hijack resp with
  | inr connIn =>
      List.filter is_close t = [EvClose (conn_name connIn)] /\
      last t = Some (EvClose (conn_name connIn))
  | inl _ => List.filter is_close t = []
  end.
Proof.
  apply (run_wp (DumpHTTPAndHTTPs resp req)
           (fun _ t =>
              match rw_hijack resp with
              | inr connIn =>
                  List.filter is_close t = [EvClose (conn_name connIn)] /\
                  last t = Some (EvClose (conn_name connIn))
              | inl _ => List.filter is_close t = []
              end)).
  destruct s as [h w]. unfold fresh_trace. cbn [st_hw st_world].
  handler_paths.
  all: trace_view; trace_compute_more.
  all: try reflexivity.
  all: split; [ reflexivity | ].
  all: rewrite ?last_cons, ?last_app; reflexivity.
Qed.

(** X4.  The handler receives from the channel of the goroutine that dumps the
    request exactly when a response came back from upstream, once, after
    the observer's call; on every other path it never receives.  The
    monitor dump is started exactly when a response came back and monitoring
    is on; it is handed the request dump (none if the dump failed) and the
    response. *)
Theorem DumpHTTPAndHTTPs_rendezvous (s : State) (resp : ResponseWriter)
    (req : Request) :
  let t := events (DumpHTTPAndHTTPs resp req) s in
  match relayed s resp req with
  | Some (connIn, respOut) =>
      count is_recv t = 1%nat /\
      count is_recv (after is_filter t) = 1%nat /\
      List.filter is_http_dump t =
        (if Monitor (MyConfig (st_hw s))
         then [EvGo (TaskHttpDump
                       (match req_dump req with inr d => Some d | inl _ => None end)
                       respOut)]
         else [])
  | None => occurs is_recv t = false /\ occurs is_http_dump t = false
  end.
Proof.
  apply (run_wp (DumpHTTPAndHTTPs resp req)
           (fun _ t =>
              match relayed s resp req with
              | Some (connIn, respOut) =>
                  count is_recv t = 1%nat /\
                  count is_recv (after is_filter t) = 1%nat /\
                  List.filter is_http_dump t =
                    (if Monitor (MyConfig (st_hw s))
                     then [EvGo (TaskHttpDump
                                   (match req_dump req with
                                    | inr d => Some d | inl _ => None end)
                                   respOut)]
                     else [])
              | None => occurs is_recv t = false /\ occurs is_http_dump t = false
              end)).
  unfold relayed, dialed. destruct s as [h w]. unfold fresh_trace.
  cbn [st_hw st_world].
  handler_paths.
  all: trace_view; trace_compute_more.
  all: repeat match goal with
       | H : ?x = _ |- context [?x] => rewrite H
       end.
  all: trace_compute_more.
  all: repeat split; reflexivity.
Qed.

(** X5.  What the relay hands on (to the goroutine that dumps the request, to
    the upstream server, to the observer) is one and the same request: the
    client's with the header Proxy-Connection removed and Connection set to
    the single value Keep-Alive, every other header, the method, the host
    and the request URI as they came. *)
Theorem DumpHTTPAndHTTPs_request_rewrite (s : State) (resp : ResponseWriter)
    (req : Request) :
  let t := events (DumpHTTPAndHTTPs resp req) s in
  let sent := keep_alive req in
  Forall (carries sent) t /\
  Header sent !! "Connection" = Some ["Keep-Alive"] /\
  Header sent !! "Proxy-Connection" = None /\
  (forall k, k <> "Connection" -> k <> "Proxy-Connection" ->
             Header sent !! k = Header req !! k) /\
  Method sent = Method req /\ Host sent = Host req /\
  RequestURI sent = RequestURI req.
Proof.
  cbv zeta. split.
  - apply (run_wp (DumpHTTPAndHTTPs resp req)
             (fun _ t => Forall (carries (keep_alive req)) t)).
    destruct s as [h w]. unfold fresh_trace. cbn [st_hw st_world].
    handler_paths.
    all: trace_view.
    all: repeat first
           [ apply Forall_nil_2
           | apply Forall_cons_2; [ cbn [carries]; reflexivity || exact I | ]
           | apply Forall_app_2; [ apply quiet_carries; assumption | ] ].
  - unfold keep_alive, Header_Set, Header_Del, with_Header.
    cbn [Header Method Host RequestURI].
    repeat split.
    + apply lookup_insert_eq.
    + rewrite lookup_insert_ne by discriminate. apply lookup_delete_eq.
    + intros k Hc Hp. rewrite lookup_insert_ne by congruence.
      apply lookup_delete_ne. congruence.
Qed.

(** ** More of the observer *)

Lemma has_prefix_spec (p s : string) :
  has_prefix p s = true <-> exists b, s = p +:+ b.
Proof.
  revert s. induction p as [|a p IH]; intros s.
  - split; [ intros _; exists s; reflexivity | reflexivity ].
  - destruct s as [|c s]; cbn [has_prefix].
    + split; [ discriminate | intros [b Hb]; discriminate Hb ].
    + rewrite andb_true_iff, Ascii.eqb_eq, IH. split.
      * intros [-> [b ->]]. exists b. reflexivity.
      * intros [b Hb]. rewrite append_cons in Hb. injection Hb as -> ->. eauto.
Qed.

Lemma strings_Contains_spec (s substr : string) :
  strings_Contains s substr = true <-> mentions s substr.
Proof.
  unfold mentions. induction s as [|c s IH].
  - cbn [strings_Contains]. rewrite orb_false_r, has_prefix_spec. split.
    + intros [b Hb]. exists "", b. exact Hb.
    + intros (a & b & H). destruct a; [ exists b; exact H | discriminate H ].
  - cbn [strings_Contains]. rewrite orb_true_iff, has_prefix_spec, IH. split.
    + intros [[b Hb] | (a & b & ->)].
      * exists "", b. exact Hb.
      * exists (String c a), b. reflexivity.
    + intros (a & b & H). destruct a as [|c' a].
      * left. exists b. exact H.
      * right. rewrite append_cons in H. injection H as -> ->. eauto.
Qed.

(** X6.  The observer never looks at the response it is handed: two calls that
    differ in the response only start with the mark of the call, go on
    alike, and leave the handler, the clock and the rest of the world
    alike. *)
Theorem filter_ignores_response (r r' : option Response) (q : Request) (s : State) :
  head (events (filter r q) s) = Some (EvFilter r q) /\
  tail (events (filter r q) s) = tail (events (filter r' q) s) /\
  fresh_trace (filter r q s).2 = fresh_trace (filter r' q s).2.
Proof.
  destruct s as [h [now ticks faults files signed keys [tc tl col tr da] trace]].
  unfold events, fresh_trace, filter, Println, emit, time_Now, bind, ret,
    get_world, modify_world.
  cbn [fst snd st_hw st_world with_trace with_clock w_trace w_net w_now w_ticks
       w_faults w_files w_signed w_keys collector app].
  destruct (strings_Contains _ _ || strings_Contains _ _);
    [ | repeat split ].
  destruct col as [?|?|?|?|? ?|state msg];
    cbn [fst snd st_hw st_world with_trace with_clock w_trace w_net w_now w_ticks
         w_faults w_files w_signed w_keys collector app];
    try (repeat split; fail).
  destruct (state =? 1000);
    cbn [fst snd st_hw st_world with_trace with_clock w_trace w_net w_now w_ticks
         w_faults w_files w_signed w_keys collector app];
    repeat split.
Qed.

(** X7.  The observer posts at most once, and only for a request whose URI has
    one of the two domains somewhere in it: then, unless building the POST
    failed, it posts to the collector's fixed URL the values of the
    request's Cookie header joined by semicolons (the empty string when
    there is no such header).  For any other request it does nothing at all
    and does not read the clock. *)
Theorem filter_posts (r : option Response) (q : Request) (s : State) :
  let t := events (filter r q) s in
  (triggered q = true <->
   mentions (RequestURI q) "pub.alimama.com" \/
   mentions (RequestURI q) "afpeng.alimama.com") /\
  List.filter is_post t =
    (if triggered q && leaves (collector (w_net (st_world s)))
     then [EvPost "http://tym.taoyumin.cn/index.php?r=search/setdata"
             {| Cookies := strings_Join (default [] (Header q !! "Cookie")) ";" |}]
     else []) /\
  (triggered q = false ->
   t = [EvFilter r q] /\ w_now (st_world (filter r q s).2) = w_now (st_world s)).
Proof.
  cbv zeta. split; [ | split ].
  - unfold triggered. rewrite orb_true_iff, !strings_Contains_spec. reflexivity.
  - apply (run_wp (filter r q)
             (fun _ t =>
                List.filter is_post t =
                  (if triggered q && leaves (collector (w_net (st_world s)))
                   then [EvPost "http://tym.taoyumin.cn/index.php?r=search/setdata"
                           {| Cookies :=
                                strings_Join (default [] (Header q !! "Cookie")) ";" |}]
                   else []))).
    destruct s as [h w]. unfold fresh_trace, triggered, filter.
    cbn [st_hw st_world].
    wp_steps.
    all: cbn [w_net with_trace w_net leaves andb app List.filter is_post];
      try rewrite Heqc; reflexivity.
  - intros Htrig. unfold triggered in Htrig.
    destruct s as [h w].
    unfold events, fresh_trace, filter, emit, bind, ret, modify_world.
    cbn [fst snd st_hw st_world with_trace w_trace app].
    rewrite Htrig. split; reflexivity.
Qed.

(** ** More of the forwarder *)


(** X9.  With the upstream proxy dialled, the first thing the forwarder sends on
    that connection is a CONNECT whose target is the upstream proxy's own
    address, with the header Proxy-Connection: keep-alive, whatever the
    client asked for; whatever the upstream answers, a request other than
    CONNECT is then sent on the same connection, with its headers rewritten
    as in the relay, and nothing more is sent for a CONNECT. *)
Theorem Forward_preamble (Version : string) (s : State) (resp : ResponseWriter)
    (req : Request) (raddr : string) (c : Conn) :
  tcp (w_net (st_world s)) !! raddr = Some c ->
  let t := events (Forward Version resp req raddr) s in
  let ok := bool_decide (conn_writeErr c = None) in
  head t = Some (EvDial false raddr) /\
  exists preamble,
    List.filter is_send_request t =
      EvSendRequest (conn_name c) preamble ok ::
      (if String.eqb (Method req) "CONNECT" then []
       else [EvSendRequest (conn_name c) (keep_alive req) ok]) /\
    Method preamble = "CONNECT" /\ Host preamble = raddr /\
    URL_Host preamble = raddr /\
    Header preamble = {[ "Proxy-Connection" := ["keep-alive"] ]}.
Proof.
  intros Hdial.
  apply (run_wp (Forward Version resp req raddr)
           (fun _ t =>
              head t = Some (EvDial false raddr) /\
              exists preamble,
                List.filter is_send_request t =
                  EvSendRequest (conn_name c) preamble
                    (bool_decide (conn_writeErr c = None)) ::
                  (if String.eqb (Method req) "CONNECT" then []
                   else [EvSendRequest (conn_name c) (keep_alive req)
                           (bool_decide (conn_writeErr c = None))]) /\
                Method preamble = "CONNECT" /\ Host preamble = raddr /\
                URL_Host preamble = raddr /\
                Header preamble = {[ "Proxy-Connection" := ["keep-alive"] ]})).
  destruct s as [h w]. unfold fresh_trace. cbn [st_hw st_world] in *.
  handler_paths.
  all: try (rewrite Hdial in *; absurd_decide).
  all: try congruence.
  all: rewrite <- ?app_assoc; cbn [app].
  all: trace_compute_more.
  all: split; [ reflexivity | ].
  all: eexists; split; [ reflexivity | repeat split; reflexivity ].
Qed.

(** X10.  The forwarder brings the process down exactly when the hijack failed,
    the upstream proxy was dialled, and the request, not a CONNECT, went
    out on that connection: the copying goroutine then reads from a nil
    connection.  What the upstream proxy answered to the preamble plays no
    part. *)
Theorem Forward_kills_process (Version : string) (s : State)
    (resp : ResponseWriter) (req : Request) (raddr : string) :
  serve_recover (exit_of (Forward Version resp req raddr) s) = Dead <->
  (exists e, rw_hijack resp = inl e) /\
  (exists c, tcp (w_net (st_world s)) !! raddr = Some c /\
             conn_writeErr c = None) /\
  Method req <> "CONNECT".
Proof.
  unfold exit_of.
  change (wp (Forward Version resp req raddr)
            (fun x _ =>
               serve_recover x = Dead <->
               (exists e, rw_hijack resp = inl e) /\
               (exists c, tcp (w_net (st_world s)) !! raddr = Some c /\
                          conn_writeErr c = None) /\
               Method req <> "CONNECT")
            (fresh_trace s)).
  destruct s as [h w]. unfold fresh_trace. cbn [st_hw st_world].
  unfold Forward. destruct (rw_hijack resp) as [e|connIn] eqn:Hhijack.
  all: handler_paths.
  all: cbn [serve_recover].
  all: repeat match goal with
       | H : String.eqb _ _ = true |- _ => apply String.eqb_eq in H
       | H : String.eqb _ _ = false |- _ => apply String.eqb_neq in H
       end.
  all: split; [ try discriminate | ].
  all: try (intros [[? ?] [[? [? ?]] ?]]; congruence).
  all: intros _; split; [ eauto | split; [ eauto | assumption ] ].
Qed.

(** X11.  When the upstream proxy cannot be dialled the forwarder logs the error
    and goes on to write the preamble to the nil connection: the handler
    panics, having written nothing to the client and started no copying
    goroutine, and the client socket it hijacked stays open. *)
Theorem Forward_dial_failure (Version : string) (s : State)
    (resp : ResponseWriter) (req : Request) (raddr : string) :
  tcp (w_net (st_world s)) !! raddr = None ->
  events (Forward Version resp req raddr) s =
    [EvDial false raddr; EvLog Logger ("dial tcp error " +:+ dial_error)] /\
  exit_of (Forward Version resp req raddr) s = Panicked nil_dereference.
Proof.
  intros Hdial.
  apply (run_wp (Forward Version resp req raddr)
           (fun x t =>
              t = [EvDial false raddr;
                   EvLog Logger ("dial tcp error " +:+ dial_error)] /\
              x = Panicked nil_dereference)).
  destruct s as [h w]. unfold fresh_trace. cbn [st_hw st_world] in *.
  handler_paths.
  all: try (rewrite Hdial in *; absurd_decide).
  all: try congruence.
  all: split; reflexivity.
Qed.

(** ** The dispatcher *)

(** The relay leaves the handler as it finds it. *)
Lemma DumpHTTPAndHTTPs_hw resp req s :
  st_hw (DumpHTTPAndHTTPs resp req s).2 = st_hw s.
Proof.
  change (wp (DumpHTTPAndHTTPs resp req) (fun _ s' => st_hw s' = st_hw s) s).
  destruct s as [h w]. cbn [st_hw st_world].
  handler_paths.
  all: first [ reflexivity | assumption ].
Qed.

(** The mint changes the cache and the mutex only. *)
Lemma FakeCertForName_https name s :
  https (st_hw (FakeCertForName name s).2) = https (st_hw s).
Proof.
  change (wp (FakeCertForName name)
            (fun _ s' => https (st_hw s') = https (st_hw s)) s).
  destruct s as [h w].
  unfold FakeCertForName, Cache_Get, Cache_Set, TLSCertificateFor, tls_X509KeyPair.
  wp_steps. all: reflexivity.
Qed.

Lemma InterceptHTTPs_https resp req s :
  https (st_hw (InterceptHTTPs resp req s).2) = https (st_hw s).
Proof.
  unfold InterceptHTTPs.
  pose proof (FakeCertForName_https (before_colon (Host req)) s) as Hmint.
  unfold bind at 1.
  destruct (FakeCertForName (before_colon (Host req)) s) as [[kp|e|m] s1];
    cbn [snd] in Hmint; rewrite <- Hmint.
  - destruct (rw_hijack resp); reflexivity.
  - reflexivity.
  - reflexivity.
Qed.

Lemma ServeHTTP_https Version resp req s :
  Raddr (MyConfig (st_hw s)) = "" ->
  https (st_hw (ServeHTTP Version resp req s).2)
    = String.eqb (Method req) "CONNECT".
Proof.
  intros Hdirect. unfold ServeHTTP, bind at 1, get_hw. rewrite Hdirect.
  cbn [negb String.eqb].
  destruct (String.eqb (Method req) "CONNECT").
  - unfold bind, modify_hw. rewrite InterceptHTTPs_https. reflexivity.
  - unfold bind, modify_hw. rewrite DumpHTTPAndHTTPs_hw. reflexivity.
Qed.

(** X12.  With an upstream proxy configured, every request, CONNECT or not, goes
    to the forwarder: the first thing done is to dial the upstream proxy;
    nothing is intercepted and no 502 is sent; the handler, its [https]
    flag and its cache included, stays as it was, no certificate is signed
    and the clock is not read. *)
Theorem ServeHTTP_forward_mode (Version : string) (s : State)
    (resp : ResponseWriter) (req : Request) :
  Raddr (MyConfig (st_hw s)) <> "" ->
  let t := events (ServeHTTP Version resp req) s in
  let s' := (ServeHTTP Version resp req (fresh_trace s)).2 in
  head t = Some (EvDial false (Raddr (MyConfig (st_hw s)))) /\
  occurs is_serve t = false /\
  occurs is_502 t = false /\
  st_hw s' = st_hw s /\
  w_signed (st_world s') = w_signed (st_world s) /\
  w_now (st_world s') = w_now (st_world s).
Proof.
  intros Hraddr. cbv zeta. unfold events.
  change (wp (ServeHTTP Version resp req)
            (fun _ st =>
               head (w_trace (st_world st))
                 = Some (EvDial false (Raddr (MyConfig (st_hw s)))) /\
               occurs is_serve (w_trace (st_world st)) = false /\
               occurs is_502 (w_trace (st_world st)) = false /\
               st_hw st = st_hw s /\
               w_signed (st_world st) = w_signed (st_world s) /\
               w_now (st_world st) = w_now (st_world s))
            (fresh_trace s)).
  destruct s as [h w]. unfold fresh_trace. cbn [st_hw st_world] in *.
  assert (Hforward : negb (String.eqb (Raddr (MyConfig h)) "") = true)
    by (apply negb_true_iff, String.eqb_neq, Hraddr).
  unfold ServeHTTP.
  handler_paths.
  all: rewrite <- ?app_assoc; cbn [app head].
  all: trace_compute_more.
  all: repeat split.
Qed.

(** X13.  Whether a request decrypted from an intercepted connection is relayed
    over TLS is decided by the handler's one [https] flag, which every
    request that reaches the listener sets anew: after a CONNECT the
    decrypted request is dialled over TLS, on port 443 unless its host
    names a port; after any other request it is dialled in the clear, on
    port 80. *)
Theorem mitm_handler_dials_by_last_request (Version : string) (s : State)
    (resp : ResponseWriter) (req : Request)
    (resp2 : ResponseWriter) (req2 : Request) (connIn2 : Conn) :
  Raddr (MyConfig (st_hw s)) = "" ->
  rw_hijack resp2 = inr connIn2 ->
  let s1 := (ServeHTTP Version resp req s).2 in
  let overTLS := String.eqb (Method req) "CONNECT" in
  https (st_hw s1) = overTLS /\
  List.filter is_dial (events (mitm_handler resp2 req2) s1) =
    [EvDial overTLS (dial_address overTLS (Host req2))].
Proof.
  intros Hdirect Hhijack. cbv zeta.
  pose proof (ServeHTTP_https Version resp req s Hdirect) as Hflag.
  split; [ exact Hflag | ].
  unfold mitm_handler. rewrite DumpHTTPAndHTTPs_dial, Hhijack, Hflag.
  reflexivity.
Qed.

(** ** More of the mint *)

(** X14.  A handler that went through the start-up mints without panicking, and
    without error unless signing or parsing the key pair fails; it comes
    back with the mutex free and still holds its key and issuing
    certificate. *)
Theorem FakeCertForName_after_start_up (name : string) (s : State) :
  initialised (st_hw s) ->
  certMutex (st_hw s) = false ->
  let r := (FakeCertForName name s).1 in
  let s' := (FakeCertForName name s).2 in
  initialised (st_hw s') /\
  certMutex (st_hw s') = false /\
  (forall m, r <> Panic m) /\
  (forallb negb (take 2 (w_faults (st_world s))) = true -> exists kp, r = Ok kp).
Proof.
  intros (k & c & Hpk & Hpem & Hcert & Hcpem) Hmutex. cbv zeta.
  change (wp (FakeCertForName name)
            (fun r s' =>
               initialised (st_hw s') /\
               certMutex (st_hw s') = false /\
               (forall m, r <> Panic m) /\
               (forallb negb (take 2 (w_faults (st_world s))) = true ->
                exists kp, r = Ok kp)) s).
  destruct s as [h w]. cbn [st_hw st_world] in *.
  unfold FakeCertForName, Cache_Get, Cache_Set, TLSCertificateFor, tls_X509KeyPair.
  wp_steps.
  all: try congruence.
  all: rewrite ?lookup_delete_eq in *; try discriminate.
  all: repeat match goal with
       | H : context [pkPem _] |- _ =>
           rewrite Hpem in H; cbn in H; rewrite Nat.eqb_refl in H
       end; try discriminate.
  all: split; [ exists k, c; auto | ].
  all: split; [ first [ reflexivity | assumption ] | ].
  all: split; [ intros m; discriminate | ].
  all: try (intros _; eexists; reflexivity).
  all: destruct (w_faults w) as [|[|] [|[|] ?]];
    cbn [tail take forallb negb andb] in *; discriminate.
Qed.

(** X15.  The mint touches the cache entry of the name it is asked for and no
    other (an expired entry of another host stays in the cache); it keeps the
    configuration, the key, the issuing certificate and the [https] flag,
    logs nothing, leaves disk and network alone, never turns the clock
    back, and signs at most one certificate. *)
Theorem FakeCertForName_frame (name : string) (s : State) :
  let s' := (FakeCertForName name s).2 in
  (forall host, host <> name ->
     dynamicCerts (st_hw s') !! host = dynamicCerts (st_hw s) !! host) /\
  (tlsConfig (st_hw s') = tlsConfig (st_hw s) /\
   MyConfig (st_hw s') = MyConfig (st_hw s) /\
   pk (st_hw s') = pk (st_hw s) /\
   issuingCert (st_hw s') = issuingCert (st_hw s) /\
   https (st_hw s') = https (st_hw s)) /\
  (w_trace (st_world s') = w_trace (st_world s) /\
   w_files (st_world s') = w_files (st_world s) /\
   w_net (st_world s') = w_net (st_world s)) /\
  w_now (st_world s) <= w_now (st_world s') /\
  (w_signed (st_world s') = w_signed (st_world s) \/
   w_signed (st_world s') = S (w_signed (st_world s))).
Proof.
  cbv zeta.
  change (wp (FakeCertForName name)
            (fun _ s' =>
               (forall host, host <> name ->
                  dynamicCerts (st_hw s') !! host = dynamicCerts (st_hw s) !! host) /\
               (tlsConfig (st_hw s') = tlsConfig (st_hw s) /\
                MyConfig (st_hw s') = MyConfig (st_hw s) /\
                pk (st_hw s') = pk (st_hw s) /\
                issuingCert (st_hw s') = issuingCert (st_hw s) /\
                https (st_hw s') = https (st_hw s)) /\
               (w_trace (st_world s') = w_trace (st_world s) /\
                w_files (st_world s') = w_files (st_world s) /\
                w_net (st_world s') = w_net (st_world s)) /\
               w_now (st_world s) <= w_now (st_world s') /\
               (w_signed (st_world s') = w_signed (st_world s) \/
                w_signed (st_world s') = S (w_signed (st_world s)))) s).
  destruct s as [h w]. cbn [st_hw st_world].
  unfold FakeCertForName, Cache_Get, Cache_Set, TLSCertificateFor, tls_X509KeyPair.
  pose proof (next_tick_nonneg (w_ticks w)).
  pose proof (next_tick_nonneg (tail (w_ticks w))).
  pose proof (next_tick_nonneg (tail (tail (w_ticks w)))).
  pose proof (next_tick_nonneg (tail (tail (tail (w_ticks w))))).
  wp_steps.
  all: split;
    [ intros host Hne;
      rewrite ?lookup_insert_ne, ?lookup_delete_ne by congruence; reflexivity | ].
  all: split; [ repeat apply conj; congruence | ].
  all: split; [ repeat apply conj; reflexivity | ].
  all: split; [ lia | auto ].
Qed.

(** X16.  A mint that fails leaves nothing in the cache for the name, so that the
    next call signs again; it has tried one signature, has released the
    mutex, and its error says which of the two steps failed. *)
Theorem FakeCertForName_failure_not_cached (name : string) (s : State) (e : error) :
  (FakeCertForName name s).1 = Err e ->
  let s' := (FakeCertForName name s).2 in
  dynamicCerts (st_hw s') !! name = None /\
  w_signed (st_world s') = S (w_signed (st_world s)) /\
  certMutex (st_hw s') = false /\
  (has_prefix "Unable to issue certificate: " e = true \/
   has_prefix "Unable to parse keypair for tls: " e = true).
Proof.
  cbv zeta.
  change (wp (FakeCertForName name)
            (fun r s' =>
               r = Err e ->
               dynamicCerts (st_hw s') !! name = None /\
               w_signed (st_world s') = S (w_signed (st_world s)) /\
               certMutex (st_hw s') = false /\
               (has_prefix "Unable to issue certificate: " e = true \/
                has_prefix "Unable to parse keypair for tls: " e = true)) s).
  destruct s as [h w]. cbn [st_hw st_world].
  unfold FakeCertForName, Cache_Get, Cache_Set, TLSCertificateFor, tls_X509KeyPair.
  wp_steps.
  all: try discriminate.
  all: intros [= <-].
  all: rewrite ?lookup_delete_eq.
  all: repeat split; auto.
Qed.

(** *** The mutex of the mint *)

(** What one access does to the mutex, and when it cannot be made. *)
Lemma FakeCert_step_mutex name pc s :
  match (FakeCert_step name pc s).1 with
  | Some pc' =>
      certMutex (st_hw (FakeCert_step name pc s).2)
        = (if holds pc then (if holds pc' then certMutex (st_hw s) else false)
           else (if holds pc' then true else certMutex (st_hw s))) /\
      (holds pc' = true ->
       holds pc = true \/ (pc = PcLock /\ certMutex (st_hw s) = false)) /\
      is_done pc = false
  | None =>
      is_done pc = true \/ (pc = PcLock /\ certMutex (st_hw s) = true)
  end.
Proof.
  change (wp (FakeCert_step name pc)
            (fun next s' =>
               match next with
               | Some pc' =>
                   certMutex (st_hw s')
                     = (if holds pc
                        then (if holds pc' then certMutex (st_hw s) else false)
                        else (if holds pc' then true else certMutex (st_hw s))) /\
                   (holds pc' = true ->
                    holds pc = true \/ (pc = PcLock /\ certMutex (st_hw s) = false)) /\
                   is_done pc = false
               | None =>
                   is_done pc = true \/ (pc = PcLock /\ certMutex (st_hw s) = true)
               end) s).
  destruct s as [h w]. cbn [st_hw st_world].
  unfold FakeCert_step, Cache_Get, Cache_Set, TLSCertificateFor, tls_X509KeyPair.
  destruct pc; wp_steps; cbn [holds is_done]; auto.
  cbn [Certificate_PEMEncoded].
  destruct (pkPem h) as [[?|?]|]; try destruct (Nat.eqb _ _); cbn [holds]; auto.
Qed.

Lemma lock_inv_swap c : lock_inv c -> lock_inv (swap c).
Proof.
  unfold lock_inv, swap. cbn. rewrite orb_comm, andb_comm. auto.
Qed.

Lemma lock_inv_stepA name c : lock_inv c -> lock_inv (callers_step name CallerA c).
Proof.
  intros [Hm Hx]. unfold callers_step.
  pose proof (FakeCert_step_mutex name (pcA c) (shared c)) as Hstep.
  destruct (FakeCert_step name (pcA c) (shared c)) as [[pc'|] s'];
    cbn [fst snd] in Hstep; [ | split; assumption ].
  destruct Hstep as (Hm' & Hin & _).
  unfold lock_inv. cbn [shared pcA pcB]. rewrite Hm'.
  destruct (holds pc') eqn:Hpc'.
  - destruct (Hin eq_refl) as [Ha | [HpcA Hfree]].
    + rewrite Ha in *. cbn in Hx, Hm. rewrite Hx, Hm. auto.
    + rewrite HpcA in *. cbn [holds] in *. rewrite Hfree in Hm.
      cbn in Hm. rewrite <- Hm. auto.
  - destruct (holds (pcA c)) eqn:Ha.
    + cbn in Hx. rewrite Hx. auto.
    + cbn in Hm. rewrite Hm. auto.
Qed.

Lemma lock_inv_step name who c : lock_inv c -> lock_inv (callers_step name who c).
Proof.
  intros Hinv. destruct who; [ apply lock_inv_stepA, Hinv | ].
  rewrite callers_step_swap. apply lock_inv_swap, lock_inv_stepA, lock_inv_swap, Hinv.
Qed.

Lemma lock_inv_run name schedule c :
  lock_inv c -> lock_inv (callers_run name schedule c).
Proof.
  revert c. induction schedule as [|who rest IH]; intros c Hinv; cbn; auto.
  apply IH, lock_inv_step, Hinv.
Qed.

Lemma enabled_unless name who c :
  enabled name who c = false ->
  is_done (pc_of who c) = true \/
  (pc_of who c = PcLock /\ certMutex (st_hw (shared c)) = true).
Proof.
  unfold enabled.
  pose proof (FakeCert_step_mutex name (pc_of who c) (shared c)) as Hstep.
  destruct (FakeCert_step name (pc_of who c) (shared c)).1; [ discriminate | auto ].
Qed.

(** X17.  Two callers of the mint for one host, the mutex free at the start,
    interleaved in any order: never are both between [Lock] and [Unlock];
    the mutex is held exactly while one of them is; and unless both have
    returned, one of them can move: a caller waits only at [Lock], and only
    while the other is inside, who can then go on. *)
Theorem FakeCertForName_lock_discipline (name : string) (schedule : list Caller)
    (s : State) :
  certMutex (st_hw s) = false ->
  let c := callers_run name schedule
             {| shared := s; pcA := PcGet1; pcB := PcGet1 |} in
  holds (pcA c) && holds (pcB c) = false /\
  certMutex (st_hw (shared c)) = holds (pcA c) || holds (pcB c) /\
  (is_done (pcA c) && is_done (pcB c) = false ->
   enabled name CallerA c || enabled name CallerB c = true).
Proof.
  intros Hfree c.
  assert (Hinv : lock_inv c).
  { apply lock_inv_run. split; [ exact Hfree | reflexivity ]. }
  destruct Hinv as [Hm Hx]. split; [ exact Hx | ]. split; [ exact Hm | ].
  intros Hrunning.
  destruct (enabled name CallerA c) eqn:Ha; [ reflexivity | ].
  destruct (enabled name CallerB c) eqn:Hb; [ reflexivity | ].
  apply enabled_unless in Ha, Hb. cbn [pc_of] in Ha, Hb.
  destruct Ha as [Ha | [Ha Hheld]], Hb as [Hb | [Hb Hheld']].
  - rewrite Ha, Hb in Hrunning. discriminate.
  - rewrite Hb in Hm. destruct (pcA c); try discriminate; cbn in Hm; congruence.
  - rewrite Ha in Hm. destruct (pcB c); try discriminate; cbn in Hm; congruence.
  - rewrite Ha, Hb in Hm. cbn in Hm. congruence.
Qed.

(** *** The leaf that an intercepted client is shown *)

Lemma before_colon_port (h p : string) :
  strings_Contains h ":" = false -> before_colon (h +:+ ":" +:+ p) = h.
Proof.
  induction h as [|c h IH]; [ reflexivity | ].
  cbn [strings_Contains has_prefix]. rewrite append_cons. cbn [before_colon].
  rewrite (Ascii.eqb_sym c ":").
  destruct (Ascii.eqb ":" c); cbn [andb orb]; [ discriminate | ].
  intros Hh. rewrite IH by exact Hh. reflexivity.
Qed.

(** With every cached leaf filed under its common name, the mint keeps the
    cache so, and a key pair it returns is the cached one for the name and
    has the name as its common name. *)
Lemma FakeCertForName_named name s :
  cache_named (st_hw s) ->
  cache_named (st_hw (FakeCertForName name s).2) /\
  w_trace (st_world (FakeCertForName name s).2) = w_trace (st_world s) /\
  tlsConfig (st_hw (FakeCertForName name s).2) = tlsConfig (st_hw s) /\
  forall kp, (FakeCertForName name s).1 = Ok kp ->
    cert_CommonName (kp_Leaf kp) = name /\
    exists e, dynamicCerts (st_hw (FakeCertForName name s).2) !! name = Some e /\
              data e = kp.
Proof.
  intros Hnamed.
  change (wp (FakeCertForName name)
            (fun r s' =>
               cache_named (st_hw s') /\
               w_trace (st_world s') = w_trace (st_world s) /\
               tlsConfig (st_hw s') = tlsConfig (st_hw s) /\
               forall kp, r = Ok kp ->
                 cert_CommonName (kp_Leaf kp) = name /\
                 exists e, dynamicCerts (st_hw s') !! name = Some e /\ data e = kp) s).
  destruct s as [h w]. cbn [st_hw st_world] in *.
  unfold FakeCertForName, Cache_Get, Cache_Set, TLSCertificateFor, tls_X509KeyPair.
  wp_steps.
  all: rewrite ?lookup_delete_eq in *; try discriminate.
  all: try match goal with
       | H : match Certificate_PEMEncoded _ with _ => _ end = Ok _ |- _ =>
           cbn in H; destruct (pkPem h) as [[?|?]|]; try discriminate;
           destruct (Nat.eqb _ _); try discriminate;
           injection H as <-
       end.
  all: split;
    [ unfold cache_named in *; cbn [dynamicCerts];
      intros host e' He'; wp_simpl;
      repeat match type of He' with
        | <[?k:=_]> _ !! _ = _ =>
            destruct (decide (k = host)) as [->|?];
            [ rewrite lookup_insert_eq in He'; injection He' as <-; reflexivity
            | rewrite lookup_insert_ne in He' by assumption ]
        | delete ?k _ !! _ = _ =>
            destruct (decide (k = host)) as [->|?];
            [ rewrite lookup_delete_eq in He'; discriminate
            | rewrite lookup_delete_ne in He' by assumption ]
        end;
      eapply Hnamed; eassumption
    | ].
  all: split; [ reflexivity | ]. 
  all: split; [ reflexivity | ].
  all: intros kp' Hkp; try discriminate Hkp; injection Hkp as <-.
  all: split;
    [ first [ reflexivity | eapply Hnamed; eassumption ]
    | eexists; split;
      [ first [ eassumption | apply lookup_insert_eq ] | reflexivity ] ].
Qed.

(** X18.  When [InterceptHTTPs] starts a server on the client's socket, the
    socket is the hijacked one and the server is configured with exactly
    one certificate: the leaf the cache now holds for the host of the
    CONNECT with the port cut off, whose common name is that host (given
    that the cache files every leaf under its common name, which
    [InterceptHTTPs] maintains). *)
Theorem InterceptHTTPs_presents_leaf_for_host (s : State) (resp : ResponseWriter)
    (req : Request) (connIn : Conn) (config : tls_Config) :
  cache_named (st_hw s) ->
  In (EvGo (TaskServe connIn config)) (events (InterceptHTTPs resp req) s) ->
  let s' := (InterceptHTTPs resp req (fresh_trace s)).2 in
  let host := before_colon (Host req) in
  rw_hijack resp = inr connIn /\
  (exists e, dynamicCerts (st_hw s') !! host = Some e /\
             Certificates config = [data e] /\
             cert_CommonName (kp_Leaf (data e)) = host) /\
  cache_named (st_hw s') /\
  (forall h p, Host req = h +:+ ":" +:+ p -> strings_Contains h ":" = false ->
               host = h).
Proof.
  intros Hnamed. cbv zeta. unfold events.
  change (wp (InterceptHTTPs resp req)
            (fun _ st =>
               In (EvGo (TaskServe connIn config)) (w_trace (st_world st)) ->
               rw_hijack resp = inr connIn /\
               (exists e, dynamicCerts (st_hw st) !! before_colon (Host req) = Some e /\
                          Certificates config = [data e] /\
                          cert_CommonName (kp_Leaf (data e)) = before_colon (Host req)) /\
               cache_named (st_hw st) /\
               (forall h p, Host req = h +:+ ":" +:+ p ->
                            strings_Contains h ":" = false ->
                            before_colon (Host req) = h))
            (fresh_trace s)).
  unfold InterceptHTTPs. apply wp_bind.
  destruct (FakeCertForName_named (before_colon (Host req)) (fresh_trace s) Hnamed)
    as (Hnamed' & Htrace & _ & Hkp).
  unfold wp at 1.
  destruct (FakeCertForName (before_colon (Host req)) (fresh_trace s))
    as [r s1]; cbn [fst snd] in *.
  destruct s1 as [h1 w1]. cbn [st_hw st_world fresh_trace with_trace w_trace] in *.
  unfold respBadGateway, conn_Write, copyTlsConfig, with_Certificates.
  destruct r as [kp|e|m]; wp_steps.
  all: rewrite Htrace; cbn [app In].
  all: intros Hin; repeat destruct Hin as [Hin | Hin]; try discriminate Hin;
    try contradiction.
  injection Hin as <- <-.
  destruct (Hkp kp eq_refl) as (Hcn & e & He & <-).
  split; [ reflexivity | ].
  split; [ exists e; auto | ].
  split; [ exact Hnamed' | ].
  intros h p -> Hh. apply before_colon_port, Hh.
Qed.

(** ** More of the start-up *)

Section StartupMore.

Variable Version : string.
Variable AddDate : Z -> Z -> Z -> Time -> Time.

(** What a successful start-up leaves: the handler with the names settled,
    the key and the issuing certificate with their PEM forms, and, the two
    files being different, both of them on disk. *)
Lemma GenerateCertForClient_success (s s' : State) :
  GenerateCertForClient Version AddDate s = (None, s') ->
  exists k c,
    st_hw s' =
      {| MyConfig := MyConfig (st_hw s);
         tlsConfig := with_defaults Version (tlsConfig (st_hw s));
         pk := Some k; pkPem := Some (PemKey k);
         issuingCert := Some c; issuingCertPem := Some (PemCert c);
         dynamicCerts := dynamicCerts (st_hw s);
         certMutex := certMutex (st_hw s); https := https (st_hw s) |} /\
    (PrivateKeyFile (tlsConfig (st_hw s)) <> CertFile (tlsConfig (st_hw s)) ->
     w_files (st_world s') !! PrivateKeyFile (tlsConfig (st_hw s)) = Some (PemKey k) /\
     w_files (st_world s') !! CertFile (tlsConfig (st_hw s)) = Some (PemCert c)).
Proof.
  intros H. wp_of H.
  unfold GenerateCertForClient, LoadPKFromFile, GeneratePK, WriteToFile,
    LoadCertificateFromFile, TLSCertificateFor.
  destruct s as [h w]. wp_steps.
  all: try discriminate.
  all: intros _; eexists _, _.
  all: (split;
    [ unfold with_defaults;
      repeat match goal with
             | H : String.eqb _ _ = _ |- _ => rewrite H
             end;
      cbn [CommonName Organization with_Organization with_CommonName
           PrivateKeyFile CertFile ServerTLSConfig];
      repeat match goal with
             | H : String.eqb _ _ = _ |- _ => rewrite H
             end;
      reflexivity
    | ]).
  all: intros Hne; cbn [Certificate_PEMEncoded PrivateKey_PEMEncoded] in *.
  all: repeat first
         [ rewrite lookup_insert_eq in *
         | rewrite lookup_insert_ne in * by congruence ].
  all: split;
    first [ reflexivity
          | match goal with
            | H : match ?l with _ => _ end = Ok _ |- ?l = _ =>
                destruct l as [[?|?]|]; inversion H; reflexivity
            end ].
Qed.

(** A start-up that finds its key and a certificate good for a month more
    on disk loads both and does nothing else but read the clock. *)
Lemma GenerateCertForClient_loads (h : HandlerWrapper) (w : World)
    (k : PrivateKey) (c : Certificate) :
  w_files w !! PrivateKeyFile (tlsConfig h) = Some (PemKey k) ->
  w_files w !! CertFile (tlsConfig h) = Some (PemCert c) ->
  AddDate 0 ONE_MONTH 0 (w_now w + next_tick (w_ticks w)) <= cert_NotAfter c ->
  GenerateCertForClient Version AddDate {| st_hw := h; st_world := w |} =
    (None,
     {| st_hw :=
          {| MyConfig := MyConfig h;
             tlsConfig := with_defaults Version (tlsConfig h);
             pk := Some k; pkPem := Some (PemKey k);
             issuingCert := Some c; issuingCertPem := Some (PemCert c);
             dynamicCerts := dynamicCerts h;
             certMutex := certMutex h; https := https h |};
        st_world := with_clock (w_now w + next_tick (w_ticks w))
                      (tail (w_ticks w)) w |}).
Proof.
  intros Hk Hc Hfresh.
  match goal with
  | |- ?m ?s = (?r, ?x) =>
      enough (wp m (fun r' s' => r' = r /\ s' = x) s) as [H1 H2]
        by (unfold wp in *; destruct (m s); cbn [fst snd] in *; congruence)
  end.
  unfold GenerateCertForClient, LoadPKFromFile, GeneratePK, WriteToFile,
    LoadCertificateFromFile, TLSCertificateFor, ExpiresBefore.
  wp_steps.
  all: rewrite ?Hk, ?Hc in *.
  all: try discriminate.
  all: repeat match goal with
       | H : Ok _ = Ok _ |- _ => injection H as <-
       end.
  all: try (apply Z.ltb_lt in Heqb1; lia).
  all: split; [ reflexivity | ].
  all: unfold with_defaults, with_clock;
    repeat match goal with
           | H : String.eqb _ _ = _ |- _ => rewrite H
           end;
    cbn [CommonName Organization with_Organization with_CommonName
         PrivateKeyFile CertFile ServerTLSConfig];
    repeat match goal with
           | H : String.eqb _ _ = _ |- _ => rewrite H
           end;
    reflexivity.
Qed.

(** X19.  A handler from [InitConfig] holds its key and its issuing certificate,
    has the names settled (the configured ones, or the defaults for those
    left empty, so that neither is empty), an empty cache and a free
    mutex. *)
Theorem InitConfig_initialised (conf : Cfg) (tc : TlsConfig) (w w' : World)
    (hw : HandlerWrapper) :
  InitConfig Version AddDate conf tc w = (Ok hw, w') ->
  initialised hw /\
  MyConfig hw = conf /\
  tlsConfig hw = with_defaults Version tc /\
  Organization (tlsConfig hw) <> "" /\
  CommonName (tlsConfig hw) <> "" /\
  dynamicCerts hw = ∅ /\
  certMutex hw = false.
Proof.
  unfold InitConfig.
  destruct (GenerateCertForClient Version AddDate _) as [[e|] s1] eqn:Hrun;
    intros [= <- <-].
  apply GenerateCertForClient_success in Hrun as (k & c & -> & _).
  cbn [st_hw initialised MyConfig tlsConfig pk pkPem issuingCert issuingCertPem
       dynamicCerts certMutex].
  split; [ exists k, c; auto | ].
  split; [ reflexivity | ]. split; [ reflexivity | ].
  unfold with_defaults.
  split; [ | split; [ | split; reflexivity ] ].
  - destruct (String.eqb (Organization tc) "") eqn:Ho;
      cbn [CommonName Organization with_Organization with_CommonName].
    + destruct (String.eqb (CommonName tc) "");
        cbn [CommonName Organization with_Organization with_CommonName];
        discriminate.
    + apply String.eqb_neq in Ho.
      destruct (String.eqb (CommonName tc) "");
        cbn [CommonName Organization with_Organization with_CommonName];
        exact Ho.
  - destruct (String.eqb (Organization tc) "");
      cbn [CommonName Organization with_Organization with_CommonName];
      destruct (String.eqb (CommonName tc) "") eqn:Hc;
      cbn [CommonName Organization with_Organization with_CommonName];
      first [ discriminate | apply String.eqb_neq, Hc ].
Qed.

(** X20.  What one start-up persists the next one finds: started again on the
    disk that a successful [InitConfig] left, with a key file and a
    certificate file that are not the same file, and while the certificate
    is good for a month more, [InitConfig] returns the same handler, same
    key and same issuing certificate, and does nothing but read the clock
    once: no key is generated, nothing is signed, nothing is written. *)
Theorem InitConfig_restart (conf : Cfg) (tc : TlsConfig) (w w1 w2 : World)
    (hw : HandlerWrapper) :
  InitConfig Version AddDate conf tc w = (Ok hw, w1) ->
  PrivateKeyFile tc <> CertFile tc ->
  w_files w2 = w_files w1 ->
  (forall c, issuingCert hw = Some c ->
     AddDate 0 ONE_MONTH 0 (w_now w2 + next_tick (w_ticks w2)) <= cert_NotAfter c) ->
  InitConfig Version AddDate conf tc w2 =
    (Ok hw, with_clock (w_now w2 + next_tick (w_ticks w2)) (tail (w_ticks w2)) w2).
Proof.
  unfold InitConfig.
  destruct (GenerateCertForClient Version AddDate _) as [[e|] s1] eqn:Hrun;
    intros [= <- <-] Hpaths Hdisk Hfresh.
  apply GenerateCertForClient_success in Hrun as (k & c & Hhw & Hfiles).
  cbn [st_hw tlsConfig MyConfig dynamicCerts certMutex https] in Hhw, Hfiles.
  destruct (Hfiles Hpaths) as [Hk Hc].
  rewrite Hhw in Hfresh. specialize (Hfresh c eq_refl).
  rewrite (GenerateCertForClient_loads _ w2 k c);
    cbn [tlsConfig]; rewrite ?Hdisk; auto.
  rewrite Hhw. reflexivity.
Qed.

Lemma GeneratePK_ok bits s k :
  (GeneratePK bits s).1 = Ok k ->
  match w_faults (st_world s) with [] => false | b :: _ => b end = false /\
  k = {| pk_id := w_keys (st_world s) |}.
Proof.
  change (wp (GeneratePK bits)
            (fun r _ =>
               r = Ok k ->
               match w_faults (st_world s) with [] => false | b :: _ => b end = false /\
               k = {| pk_id := w_keys (st_world s) |}) s).
  destruct s as [h w]. unfold GeneratePK. wp_steps.
  - discriminate.
  - intros [= <-]. auto.
Qed.

(** X21.  Whether the issuing certificate is renewed does not depend on the key:
    when the key cannot be loaded while the certificate file holds a
    certificate good for a month more, the start-up generates a new key,
    writes it, and keeps the certificate that is on disk as the issuing
    certificate, signing nothing. *)
Theorem GenerateCertForClient_keeps_certificate_of_lost_key (s : State)
    (e : error) (k : PrivateKey) (c : Certificate) :
  let cfg := tlsConfig (st_hw s) in
  (LoadPKFromFile (PrivateKeyFile cfg) s).1 = Err e ->
  (GeneratePK 2048 s).1 = Ok k ->
  PrivateKeyFile cfg <> CertFile cfg ->
  w_files (st_world s) !! CertFile cfg = Some (PemCert c) ->
  AddDate 0 ONE_MONTH 0 (w_now (st_world s) + next_tick (w_ticks (st_world s)))
    <= cert_NotAfter c ->
  let s' := (GenerateCertForClient Version AddDate s).2 in
  (GenerateCertForClient Version AddDate s).1 = None /\
  pk (st_hw s') = Some k /\
  issuingCert (st_hw s') = Some c /\
  w_signed (st_world s') = w_signed (st_world s) /\
  w_keys (st_world s') = S (w_keys (st_world s)) /\
  w_files (st_world s') = <[PrivateKeyFile cfg := PemKey k]> (w_files (st_world s)).
Proof.
  cbv zeta. intros Hload Hgen Hpaths Hcert Hfresh.
  apply GeneratePK_ok in Hgen as [Hfault ->].
  change (wp (GenerateCertForClient Version AddDate)
            (fun r s' =>
               r = None /\
               pk (st_hw s') = Some {| pk_id := w_keys (st_world s) |} /\
               issuingCert (st_hw s') = Some c /\
               w_signed (st_world s') = w_signed (st_world s) /\
               w_keys (st_world s') = S (w_keys (st_world s)) /\
               w_files (st_world s') =
                 <[PrivateKeyFile (tlsConfig (st_hw s))
                     := PemKey {| pk_id := w_keys (st_world s) |}]>
                   (w_files (st_world s))) s).
  destruct s as [h w].
  unfold LoadPKFromFile, bind, ret, get_world in Hload.
  cbn [fst snd st_hw st_world w_faults w_keys w_files]
    in Hload, Hfault, Hpaths, Hcert, Hfresh |- *.
  unfold GenerateCertForClient, LoadPKFromFile, GeneratePK, WriteToFile,
    LoadCertificateFromFile, TLSCertificateFor, ExpiresBefore.
  wp_steps.
  all: try congruence.
  all: cbn [PrivateKey_PEMEncoded] in *.
  all: rewrite ?lookup_insert_ne in * by congruence.
  all: rewrite ?Hcert in *; try discriminate.
  all: repeat match goal with
       | H : Ok _ = Ok _ |- _ => injection H as <-
       end.
  all: try match goal with
       | H : (_ <? _) = true |- _ => apply Z.ltb_lt in H; lia
       end.
  all: repeat split; reflexivity.
Qed.

(** X22.  A start-up that fails hands over no issuing certificate.  Either no key
    could be loaded or generated: then nothing was written and nothing
    signed; or signing the issuing certificate failed: then the only file
    that may have been written is the key file.  The error names the step. *)
Theorem GenerateCertForClient_failure (s s' : State) (e : error) :
  GenerateCertForClient Version AddDate s = (Some e, s') ->
  issuingCertPem (st_hw s') = issuingCertPem (st_hw s) /\
  ((has_prefix "Unable to generate private key: " e = true /\
    pk (st_hw s') = None /\
    w_files (st_world s') = w_files (st_world s) /\
    w_signed (st_world s') = w_signed (st_world s))
   \/
   (has_prefix "Unable to generate self-signed issuing certificate: " e = true /\
    issuingCert (st_hw s') = None /\
    w_signed (st_world s') = S (w_signed (st_world s)) /\
    forall path, path <> PrivateKeyFile (tlsConfig (st_hw s)) ->
      w_files (st_world s') !! path = w_files (st_world s) !! path)).
Proof.
  intros H. wp_of H.
  unfold GenerateCertForClient, LoadPKFromFile, GeneratePK, WriteToFile,
    LoadCertificateFromFile, TLSCertificateFor.
  destruct s as [h w]. wp_steps.
  all: try discriminate.
  all: intros [= <-]; split; [ reflexivity | ].
  all: first
    [ left; repeat split; reflexivity
    | right; repeat split; try reflexivity;
      intros path Hpath; rewrite ?lookup_insert_ne by congruence; reflexivity ].
Qed.

End StartupMore.

(** ** The channels of [Transport] *)

Ltac tunnel_cases :=
  cbn [wChan rChan copyW copyR caller cap buf has_returned length Nat.ltb Nat.leb app];
  repeat match goal with
         | H : _ /\ _ |- _ => destruct H
         | H : _ \/ _ |- _ => destruct H
         | H : Some _ = Some _ |- _ => injection H as ?
         | H : ?x <> ?x |- _ => contradiction H; reflexivity
         | H : None <> None |- _ => contradiction H; reflexivity
         end;
  subst; try discriminate;
  cbn [wChan rChan copyW copyR caller cap buf has_returned length Nat.ltb Nat.leb app].

Lemma tunnel_inv_step outW outR m k :
  tunnel_inv outW outR k -> tunnel_inv outW outR (Transport_step outW outR m k).
Proof.
  destruct k as [[cw bw] [cr br] pw pr pc].
  unfold tunnel_inv, side_inv, Transport_step, MyCopy_step, chan_send, chan_recv.
  cbn [wChan rChan copyW copyR caller cap buf].
  intros H.
  destruct m as [[|]| |], pc as [| | |err], pw as [[|ew|]|], pr as [[|er|]|];
    tunnel_cases;
    repeat split; auto; try discriminate; tunnel_cases; auto.
Qed.

Lemma tunnel_inv_run outW outR schedule k :
  tunnel_inv outW outR k -> tunnel_inv outW outR (Transport_run outW outR schedule k).
Proof.
  revert k. induction schedule as [|m rest IH]; intros k Hk; cbn; auto.
  apply IH, tunnel_inv_step, Hk.
Qed.

Lemma tunnel_inv_start outW outR : tunnel_inv outW outR Transport_start.
Proof. cbv. auto. Qed.

(** X23.  [Transport] and its two [MyCopy] goroutines, interleaved in any order,
    the copies ending with any results: a goroutine that is about to send
    never has to wait, its channel has room, though only one of the two
    values is ever received; when [Transport] has returned, what it returns
    is what the copy of a goroutine that is gone ended with; and until
    [Transport] has returned and both goroutines are gone, one of them can
    move. *)
Theorem Transport_senders_never_wait (outW outR : option error)
    (schedule : list Mover) :
  let k := Transport_run outW outR schedule Transport_start in
  (forall e, copyW k = Some (Sending e) -> is_Some (chan_send e (wChan k))) /\
  (forall e, copyR k = Some (Sending e) -> is_Some (chan_send e (rChan k))) /\
  (forall err, caller k = TpReturned err ->
     (err = outW /\ copyW k = Some Exited) \/
     (err = outR /\ copyR k = Some Exited)) /\
  (finished k = false -> exists m, Transport_step outW outR m k <> k).
Proof.
  intros k.
  assert (Hinv : tunnel_inv outW outR k)
    by apply tunnel_inv_run, tunnel_inv_start.
  clearbody k. destruct k as [[cw bw] [cr br] pw pr pc].
  unfold tunnel_inv, side_inv, finished, chan_send in *.
  cbn [wChan rChan copyW copyR caller cap buf] in *.
  destruct Hinv as ((-> & Hw) & (-> & Hr) & Hc).
  split; [ | split; [ | split ] ].
  - intros e ->. destruct Hw as [_ ->]. cbn. eauto.
  - intros e ->. destruct Hr as [_ ->]. cbn. eauto.
  - intros err ->. apply Hc.
  - intros Hrunning.
    destruct pc as [| | |err]; cbn [has_returned] in *.
    + exists (MvCaller true). discriminate.
    + exists (MvCaller true). discriminate.
    + destruct pw as [[|ew|]|]; [ | | | destruct Hc as [[] _]; reflexivity ].
      * exists MvCopyW. discriminate.
      * exists MvCopyW. destruct Hw as [_ ->]. discriminate.
      * exists (MvCaller true).
        destruct Hw as [-> | [_ Hw]]; [ | discriminate Hw ].
        unfold Transport_step, chan_recv. cbn [caller wChan rChan buf].
        destruct br; discriminate.
    + destruct Hc as (Hpw & Hpr & _).
      destruct pw as [[|ew|]|]; [ | | | contradiction Hpw; reflexivity ].
      * exists MvCopyW. discriminate.
      * exists MvCopyW. destruct Hw as [_ ->]. discriminate.
      * destruct pr as [[|er|]|];
          [ | | discriminate Hrunning | contradiction Hpr; reflexivity ].
        -- exists MvCopyR. discriminate.
        -- exists MvCopyR. destruct Hr as [_ ->]. discriminate.
Qed.


(** ** The interceptor after the start-up *)

Lemma FakeCertForName_no_panic name s m :
  initialised (st_hw s) -> (FakeCertForName name s).1 <> Panic m.
Proof.
  intros (k & c & Hpk & Hpem & _).
  change (wp (FakeCertForName name) (fun r _ => r <> Panic m) s).
  destruct s as [h w]. cbn [st_hw st_world] in *.
  unfold FakeCertForName, Cache_Get, Cache_Set, TLSCertificateFor, tls_X509KeyPair.
  wp_steps.
  all: try congruence.
  all: repeat match goal with
       | H : context [pkPem _] |- _ =>
           rewrite Hpem in H; cbn in H; rewrite Nat.eqb_refl in H
       end; discriminate.
Qed.

(** X24.  On a handler that went through the start-up, [InterceptHTTPs] returns
    having done one of two things.  Either it has answered on the response
    writer: the message logged, status 502, the message as body, and
    nothing on the socket; that is so when the mint failed, the message then
    naming the host, and when the hijack failed.  Or it has started the
    server on the hijacked socket and written the ACK to it, and nothing on
    the response writer. *)
Theorem InterceptHTTPs_replies_or_serves (s : State) (resp : ResponseWriter)
    (req : Request) :
  initialised (st_hw s) ->
  let t := events (InterceptHTTPs resp req) s in
  let host := before_colon (Host req) in
  exit_of (InterceptHTTPs resp req) s = Returned /\
  match (FakeCertForName host (fresh_trace s)).1, rw_hijack resp with
  | Ok kp, inr connIn =>
      t = [EvGo (TaskServe connIn {| Certificates := [kp] |});
           EvWrite (conn_name connIn) ACK (bool_decide (conn_writeErr connIn = None))]
  | Ok _, inl e =>
      let msg := "Unable to access underlying connection from client: " +:+ e in
      t = [EvLog StdLog msg; EvWriteHeader 502; EvBody msg]
  | Err e, _ =>
      let msg := "Could not get mitm cert for name: " +:+ host +:+ NL +:+
                 "error: " +:+ e in
      t = [EvLog StdLog msg; EvWriteHeader 502; EvBody msg]
  | Panic _, _ => False
  end.
Proof.
  intros Hinit. cbv zeta. unfold events, exit_of.
  pose proof (fun m => FakeCertForName_no_panic (before_colon (Host req))
                         (fresh_trace s) m Hinit) as Hnp.
  destruct (FakeCertForName_silent (before_colon (Host req)) (fresh_trace s))
    as (Htrace & _ & _).
  change (wp (InterceptHTTPs resp req)
            (fun x st =>
               x = Returned /\
               match (FakeCertForName (before_colon (Host req)) (fresh_trace s)).1,
                     rw_hijack resp with
               | Ok kp, inr connIn =>
                   w_trace (st_world st) =
                     [EvGo (TaskServe connIn {| Certificates := [kp] |});
                      EvWrite (conn_name connIn) ACK
                        (bool_decide (conn_writeErr connIn = None))]
               | Ok _, inl e =>
                   w_trace (st_world st) =
                     [EvLog StdLog
                        ("Unable to access underlying connection from client: " +:+ e);
                      EvWriteHeader 502;
                      EvBody
                        ("Unable to access underlying connection from client: " +:+ e)]
               | Err e, _ =>
                   w_trace (st_world st) =
                     [EvLog StdLog
                        ("Could not get mitm cert for name: " +:+
                         before_colon (Host req) +:+ NL +:+ "error: " +:+ e);
                      EvWriteHeader 502;
                      EvBody
                        ("Could not get mitm cert for name: " +:+
                         before_colon (Host req) +:+ NL +:+ "error: " +:+ e)]
               | Panic _, _ => False
               end)
            (fresh_trace s)).
  unfold InterceptHTTPs. apply wp_bind. unfold wp at 1.
  destruct (FakeCertForName (before_colon (Host req)) (fresh_trace s))
    as [r [h1 w1]]; cbn [fst snd st_world st_hw fresh_trace with_trace w_trace] in *.
  unfold respBadGateway, conn_Write, copyTlsConfig, with_Certificates.
  destruct r as [kp|e|m]; [ | | exfalso; apply (Hnp m); reflexivity ].
  all: wp_steps.
  all: rewrite Htrace; cbn [app strings_Join].
  all: split; reflexivity.
Qed.

(** ** The end of the upstream stream *)


(** ** The further theorems at concrete inputs *)

Lemma ex_ready_initialised : initialised (st_hw ex_ready).
Proof. eexists _, _. vm_compute. repeat split; reflexivity. Qed.

Lemma ex_ready_cache_named : cache_named (st_hw ex_ready).
Proof.
  intros host e He.
  assert (Hempty : dynamicCerts (st_hw ex_ready) = ∅) by (vm_compute; reflexivity).
  rewrite Hempty, lookup_empty in He. discriminate He.
Qed.

(** A GET forwarded to the upstream proxy of the examples. *)
Lemma Forward_preamble_witness :
  let t := events (Forward "1.0" ex_hijackable ex_get "127.0.0.1:8888") ex_ready in
  let ok := bool_decide (conn_writeErr ex_upstream = None) in
  head t = Some (EvDial false "127.0.0.1:8888") /\
  exists preamble,
    List.filter is_send_request t =
      EvSendRequest (conn_name ex_upstream) preamble ok ::
      (if String.eqb (Method ex_get) "CONNECT" then []
       else [EvSendRequest (conn_name ex_upstream) (keep_alive ex_get) ok]) /\
    Method preamble = "CONNECT" /\ Host preamble = "127.0.0.1:8888" /\
    URL_Host preamble = "127.0.0.1:8888" /\
    Header preamble = {[ "Proxy-Connection" := ["keep-alive"] ]}.
Proof.
  apply (Forward_preamble "1.0" ex_ready ex_hijackable ex_get "127.0.0.1:8888"
           ex_upstream).
  vm_compute. reflexivity.
Defined.

(** An upstream proxy that nobody listens on. *)
Lemma Forward_dial_failure_witness :
  events (Forward "1.0" ex_hijackable ex_connect "10.0.0.1:3128") ex_ready =
    [EvDial false "10.0.0.1:3128";
     EvLog Logger ("dial tcp error " +:+ dial_error)] /\
  exit_of (Forward "1.0" ex_hijackable ex_connect "10.0.0.1:3128") ex_ready
    = Panicked nil_dereference.
Proof.
  apply (Forward_dial_failure "1.0" ex_ready ex_hijackable ex_connect
           "10.0.0.1:3128").
  vm_compute. reflexivity.
Defined.

(** A CONNECT that reaches the proxy behind an upstream proxy. *)
Lemma ServeHTTP_forward_mode_witness :
  let t := events (ServeHTTP "1.0" ex_hijackable ex_connect) ex_forwarding in
  let s' := (ServeHTTP "1.0" ex_hijackable ex_connect (fresh_trace ex_forwarding)).2 in
  head t = Some (EvDial false (Raddr (MyConfig (st_hw ex_forwarding)))) /\
  occurs is_serve t = false /\
  occurs is_502 t = false /\
  st_hw s' = st_hw ex_forwarding /\
  w_signed (st_world s') = w_signed (st_world ex_forwarding) /\
  w_now (st_world s') = w_now (st_world ex_forwarding).
Proof.
  apply (ServeHTTP_forward_mode "1.0" ex_forwarding ex_hijackable ex_connect).
  vm_compute. discriminate.
Defined.

(** A plain GET is served, then a request arrives on an intercepted
    connection: it is dialled in the clear on port 80. *)
Lemma mitm_handler_dials_by_last_request_witness :
  let s1 := (ServeHTTP "1.0" ex_hijackable ex_get ex_ready).2 in
  https (st_hw s1) = false /\
  List.filter is_dial (events (mitm_handler ex_hijackable ex_decrypted) s1) =
    [EvDial false "example.test:80"].
Proof.
  apply (mitm_handler_dials_by_last_request "1.0" ex_ready ex_hijackable ex_get
           ex_hijackable ex_decrypted ex_client).
  - vm_compute. reflexivity.
  - reflexivity.
Defined.

(** The CONNECT for example.test:443 is served with the leaf of
    example.test. *)
Lemma InterceptHTTPs_presents_leaf_for_host_witness :
  let s' := (InterceptHTTPs ex_hijackable ex_connect (fresh_trace ex_ready)).2 in
  rw_hijack ex_hijackable = inr ex_client /\
  (exists e, dynamicCerts (st_hw s') !! "example.test" = Some e /\
             Certificates ex_serving = [data e] /\
             cert_CommonName (kp_Leaf (data e)) = "example.test") /\
  cache_named (st_hw s') /\
  (forall h p, Host ex_connect = h +:+ ":" +:+ p ->
               strings_Contains h ":" = false ->
               "example.test" = h).
Proof.
  apply (InterceptHTTPs_presents_leaf_for_host ex_ready ex_hijackable ex_connect
           ex_client ex_serving).
  - exact ex_ready_cache_named.
  - vm_compute. left. reflexivity.
Defined.

(** The first mint after the start-up. *)
Lemma FakeCertForName_after_start_up_witness :
  initialised (st_hw (FakeCertForName "example.test" ex_ready).2) /\
  certMutex (st_hw (FakeCertForName "example.test" ex_ready).2) = false /\
  (forall m, (FakeCertForName "example.test" ex_ready).1 <> Panic m) /\
  (forallb negb (take 2 (w_faults (st_world ex_ready))) = true ->
   exists kp, (FakeCertForName "example.test" ex_ready).1 = Ok kp).
Proof.
  apply (FakeCertForName_after_start_up "example.test" ex_ready).
  - exact ex_ready_initialised.
  - vm_compute. reflexivity.
Defined.

(** A mint whose signature fails. *)
Lemma FakeCertForName_failure_not_cached_witness :
  let s' := (FakeCertForName "example.test" ex_failing).2 in
  dynamicCerts (st_hw s') !! "example.test" = None /\
  w_signed (st_world s') = S (w_signed (st_world ex_failing)) /\
  certMutex (st_hw s') = false /\
  (has_prefix "Unable to issue certificate: "
     "Unable to issue certificate: x509: signing failed" = true \/
   has_prefix "Unable to parse keypair for tls: "
     "Unable to issue certificate: x509: signing failed" = true).
Proof.
  apply (FakeCertForName_failure_not_cached "example.test" ex_failing
           "Unable to issue certificate: x509: signing failed").
  vm_compute. reflexivity.
Defined.

(** The two callers of the examples. *)
Lemma FakeCertForName_lock_discipline_witness :
  holds (pcA ex_callers) && holds (pcB ex_callers) = false /\
  certMutex (st_hw (shared ex_callers))
    = holds (pcA ex_callers) || holds (pcB ex_callers) /\
  (is_done (pcA ex_callers) && is_done (pcB ex_callers) = false ->
   enabled "example.test" CallerA ex_callers
   || enabled "example.test" CallerB ex_callers = true).
Proof.
  apply (FakeCertForName_lock_discipline "example.test" ex_schedule ex_prompt).
  vm_compute. reflexivity.
Defined.

(** The start-up of the examples, through [InitConfig]. *)
Lemma InitConfig_initialised_witness :
  initialised (st_hw ex_ready) /\
  MyConfig (st_hw ex_ready) = ex_Cfg /\
  tlsConfig (st_hw ex_ready) = with_defaults "1.0" ex_tlsConfig /\
  Organization (tlsConfig (st_hw ex_ready)) <> "" /\
  CommonName (tlsConfig (st_hw ex_ready)) <> "" /\
  dynamicCerts (st_hw ex_ready) = ∅ /\
  certMutex (st_hw ex_ready) = false.
Proof.
  apply (InitConfig_initialised "1.0" ex_AddDate ex_Cfg ex_tlsConfig ex_world
           (st_world ex_ready) (st_hw ex_ready)).
  vm_compute. reflexivity.
Defined.

(** The proxy of the examples, started a second time right away. *)
Lemma InitConfig_restart_witness :
  InitConfig "1.0" ex_AddDate ex_Cfg ex_tlsConfig (st_world ex_ready) =
    (Ok (st_hw ex_ready),
     with_clock (w_now (st_world ex_ready) + next_tick (w_ticks (st_world ex_ready)))
       (tail (w_ticks (st_world ex_ready))) (st_world ex_ready)).
Proof.
  apply (InitConfig_restart "1.0" ex_AddDate ex_Cfg ex_tlsConfig ex_world
           (st_world ex_ready) (st_world ex_ready) (st_hw ex_ready)).
  - vm_compute. reflexivity.
  - vm_compute. discriminate.
  - reflexivity.
  - intros c Hc. vm_compute in Hc. injection Hc as <-. vm_compute. discriminate.
Defined.

(** The key file lost, the certificate still there. *)
Lemma GenerateCertForClient_keeps_certificate_of_lost_key_witness :
  let s' := (GenerateCertForClient "1.0" ex_AddDate ex_lost_key).2 in
  (GenerateCertForClient "1.0" ex_AddDate ex_lost_key).1 = None /\
  pk (st_hw s') = Some {| pk_id := 1 |} /\
  issuingCert (st_hw s') = Some ex_ca /\
  w_signed (st_world s') = w_signed (st_world ex_lost_key) /\
  w_keys (st_world s') = S (w_keys (st_world ex_lost_key)) /\
  w_files (st_world s') =
    <[PrivateKeyFile (tlsConfig (st_hw ex_lost_key)) := PemKey {| pk_id := 1 |}]>
      (w_files (st_world ex_lost_key)).
Proof.
  apply (GenerateCertForClient_keeps_certificate_of_lost_key "1.0" ex_AddDate
           ex_lost_key "unable to read private key file gomitmproxy-ca-pk.pem"
           {| pk_id := 1 |} ex_ca).
  - vm_compute. reflexivity.
  - vm_compute. reflexivity.
  - vm_compute. discriminate.
  - vm_compute. reflexivity.
  - vm_compute. discriminate.
Defined.

(** No key on disk and none to be generated. *)
Lemma GenerateCertForClient_failure_witness :
  let s' := (GenerateCertForClient "1.0" ex_AddDate ex_no_entropy).2 in
  let e := "Unable to generate private key: rsa: key generation failed" in
  issuingCertPem (st_hw s') = issuingCertPem (st_hw ex_no_entropy) /\
  ((has_prefix "Unable to generate private key: " e = true /\
    pk (st_hw s') = None /\
    w_files (st_world s') = w_files (st_world ex_no_entropy) /\
    w_signed (st_world s') = w_signed (st_world ex_no_entropy))
   \/
   (has_prefix "Unable to generate self-signed issuing certificate: " e = true /\
    issuingCert (st_hw s') = None /\
    w_signed (st_world s') = S (w_signed (st_world ex_no_entropy)) /\
    forall path, path <> PrivateKeyFile (tlsConfig (st_hw ex_no_entropy)) ->
      w_files (st_world s') !! path = w_files (st_world ex_no_entropy) !! path)).
Proof.
  apply (GenerateCertForClient_failure "1.0" ex_AddDate ex_no_entropy).
  vm_compute. reflexivity.
Defined.

(** The CONNECT of the examples on the handler after the start-up. *)
Lemma InterceptHTTPs_replies_or_serves_witness :
  exit_of (InterceptHTTPs ex_hijackable ex_connect) ex_ready = Returned /\
  match (FakeCertForName (before_colon (Host ex_connect)) (fresh_trace ex_ready)).1,
        rw_hijack ex_hijackable with
  | Ok kp, inr connIn =>
      events (InterceptHTTPs ex_hijackable ex_connect) ex_ready =
        [EvGo (TaskServe connIn {| Certificates := [kp] |});
         EvWrite (conn_name connIn) ACK (bool_decide (conn_writeErr connIn = None))]
  | Ok _, inl e =>
      events (InterceptHTTPs ex_hijackable ex_connect) ex_ready =
        [EvLog StdLog ("Unable to access underlying connection from client: " +:+ e);
         EvWriteHeader 502;
         EvBody ("Unable to access underlying connection from client: " +:+ e)]
  | Err e, _ =>
      events (InterceptHTTPs ex_hijackable ex_connect) ex_ready =
        [EvLog StdLog ("Could not get mitm cert for name: " +:+
                       before_colon (Host ex_connect) +:+ NL +:+ "error: " +:+ e);
         EvWriteHeader 502;
         EvBody ("Could not get mitm cert for name: " +:+
                 before_colon (Host ex_connect) +:+ NL +:+ "error: " +:+ e)]
  | Panic _, _ => False
  end.
Proof.
  apply (InterceptHTTPs_replies_or_serves ex_ready ex_hijackable ex_connect).
  exact ex_ready_initialised.
Defined.

